(** * sloc: a line counter for Go sources (sloc.go)

    A shallow embedding of [sloc.go].  The program walks the paths given on
    its command line, scans every path ending in [.go] line by line,
    classifies each line as white space, comment or code, sends one
    [fileLines] record per scanned file over a channel, and a second
    goroutine sums the records and prints a table.

    The parts of the Go standard library the program calls ([strings],
    [bufio.Scanner], [os.Open], [filepath.Walk]) and the two packages it
    imports (go-logging, tablewriter) are modelled by what the program
    observes of them; each such model says so.  Everything else follows
    the source, function by function. *)

From Stdlib Require Import ZArith List String Ascii Bool Lia Permutation.
From Stdlib Require Import DecimalString DecimalZ DecimalPos.
Import ListNotations.

Local Open Scope string_scope.
Local Open Scope Z_scope.
Local Open Scope list_scope.

(* ------------------------------------------------------------------ *)
(** ** Go's [int] (64 bits, two's complement, wrap-around on overflow) *)

Module GoInt.

Definition minInt : Z := - 2 ^ 63.
Definition maxInt : Z := 2 ^ 63 - 1.

Definition in_range (x : Z) : Prop := minInt <= x <= maxInt.

(** The value an arithmetic result takes once stored in an [int]. *)
Definition wrap (x : Z) : Z := (x + 2 ^ 63) mod 2 ^ 64 - 2 ^ 63.

(** [x + y], [x += y] *)
Definition add (x y : Z) : Z := wrap (x + y).

(** [x++] *)
Definition incr (x : Z) : Z := add x 1.

End GoInt.

(** [error] values are represented by their message ([err.Error()]);
    [nil] is [None] of [option error]. *)
Definition error := string.

(* ------------------------------------------------------------------ *)
(** ** Package [strings]

    Go strings are byte sequences; [string] is used as a list of bytes. *)

Module strings.

(** [len(s) >= len(prefix) && s[:len(prefix)] == prefix] *)
Definition HasPrefix (s prefix : string) : bool :=
  (String.length prefix <=? String.length s)%nat
  && String.eqb (substring 0 (String.length prefix) s) prefix.

(** [len(s) >= len(suffix) && s[len(s)-len(suffix):] == suffix] *)
Definition HasSuffix (s suffix : string) : bool :=
  (String.length suffix <=? String.length s)%nat
  && String.eqb
       (substring (String.length s - String.length suffix)
                  (String.length suffix) s)
       suffix.

Definition bytes (l : list nat) : string :=
  fold_right (fun n s => String (ascii_of_nat n) s) EmptyString l.

(** The UTF-8 encodings of the code points with Unicode's White_Space
    property, the ones [unicode.IsSpace] accepts. *)
Definition spaces : list string :=
  map bytes
    [ [9%nat]; [10%nat]; [11%nat]; [12%nat]; [13%nat]; [32%nat];
      [194; 133]%nat; [194; 160]%nat;
      [225; 154; 128]%nat;
      [226; 128; 128]%nat; [226; 128; 129]%nat; [226; 128; 130]%nat;
      [226; 128; 131]%nat; [226; 128; 132]%nat; [226; 128; 133]%nat;
      [226; 128; 134]%nat; [226; 128; 135]%nat; [226; 128; 136]%nat;
      [226; 128; 137]%nat; [226; 128; 138]%nat;
      [226; 128; 168]%nat; [226; 128; 169]%nat; [226; 128; 175]%nat;
      [226; 129; 159]%nat;
      [227; 128; 128]%nat ].

Definition dropPrefix (s p : string) : string :=
  substring (String.length p) (String.length s - String.length p) s.

Definition dropSuffix (s p : string) : string :=
  substring 0 (String.length s - String.length p) s.

Definition leadingSpace (s : string) : option string :=
  find (HasPrefix s) spaces.

Definition trailingSpace (s : string) : option string :=
  find (HasSuffix s) spaces.

Fixpoint trimLeft (fuel : nat) (s : string) : string :=
  match fuel with
  | O => s
  | S fuel' =>
      match leadingSpace s with
      | Some sp => trimLeft fuel' (dropPrefix s sp)
      | None => s
      end
  end.

Fixpoint trimRight (fuel : nat) (s : string) : string :=
  match fuel with
  | O => s
  | S fuel' =>
      match trailingSpace s with
      | Some sp => trimRight fuel' (dropSuffix s sp)
      | None => s
      end
  end.

(** Model of the library's [strings.TrimSpace]: the string without its
    leading and trailing white space, as Unicode defines it.  Every
    removal shortens the string, so its length is fuel enough. *)
Definition TrimSpace (s : string) : string :=
  let l := trimLeft (String.length s) s in
  trimRight (String.length l) l.

End strings.

(** [strconv.Itoa] *)
Definition Itoa (n : Z) : string := NilZero.string_of_int (Z.to_int n).

(* ------------------------------------------------------------------ *)
(** ** The record sent per file *)

Record fileLines := mkFileLines {
  filename : string;
  codeLines : Z;
  commentLines : Z;
  whitespaceLines : Z
}.

(** [func (this *fileLines) join(f fileLines)]; the receiver after the call. *)
Definition join (this f : fileLines) : fileLines :=
  {| filename := filename this;
     codeLines := GoInt.add (codeLines this) (codeLines f);
     commentLines := GoInt.add (commentLines this) (commentLines f);
     whitespaceLines := GoInt.add (whitespaceLines this) (whitespaceLines f) |}.

(** [res.whitespaceLines++] *)
Definition incWhitespace (res : fileLines) : fileLines :=
  {| filename := filename res;
     codeLines := codeLines res;
     commentLines := commentLines res;
     whitespaceLines := GoInt.incr (whitespaceLines res) |}.

(** [res.commentLines++] *)
Definition incComment (res : fileLines) : fileLines :=
  {| filename := filename res;
     codeLines := codeLines res;
     commentLines := GoInt.incr (commentLines res);
     whitespaceLines := whitespaceLines res |}.

(** [res.codeLines++] *)
Definition incCode (res : fileLines) : fileLines :=
  {| filename := filename res;
     codeLines := GoInt.incr (codeLines res);
     commentLines := commentLines res;
     whitespaceLines := whitespaceLines res |}.

(* ------------------------------------------------------------------ *)
(** ** What the process does: log calls, output, channel sends, exit *)

Inductive Level := CRITICAL | ERROR | WARNING | NOTICE | INFO | DEBUG.

(** What is handed to the table writer before [table.Render()]. *)
Record Table := mkTable {
  header : list string;          (* table.SetHeader *)
  footer : list string;          (* table.SetFooter *)
  border : bool;                 (* table.SetBorder *)
  rows : list (list string)      (* table.AppendBulk *)
}.

Inductive event :=
| EvLog (lvl : Level) (args : list string)  (* log.Debug(args...), log.Error(..), .. *)
| EvPrint (s : string)                      (* fmt.Printf / fmt.Println on stdout *)
| EvSend (r : fileLines)                    (* out <- r *)
| EvRender (t : Table).                     (* table.Render() on stdout *)

(** A call either returns or ends the process ([log.Fatal] is
    [log.Critical] followed by [os.Exit(1)]). *)
Inductive outcome (A : Type) :=
| Ret (a : A)
| Exit.
Arguments Ret {A} a.
Arguments Exit {A}.

(** A computation: the events it performs, in order, and how it ends. *)
Definition M (A : Type) : Type := list event * outcome A.

Definition ret {A} (a : A) : M A := ([], Ret a).

Definition bind {A B} (m : M A) (k : A -> M B) : M B :=
  match m with
  | (tr, Exit) => (tr, Exit)
  | (tr, Ret a) => let '(tr', o) := k a in (tr ++ tr', o)
  end.

Notation "x <- m ;; k" := (bind m (fun x => k))
  (at level 61, m at next level, right associativity).
Notation "m ;;; k" := (bind m (fun _ => k))
  (at level 61, right associativity).

Definition emit (e : event) : M unit := ([e], Ret tt).

Definition logf (lvl : Level) (args : list string) : M unit :=
  emit (EvLog lvl args).

(** [log.Fatal(err)] *)
Definition Fatal {A} (err : error) : M A := ([EvLog CRITICAL [err]], Exit).

Definition trace {A} (m : M A) : list event := fst m.
Definition result {A} (m : M A) : outcome A := snd m.

(** The records a computation sends on the channel, in order. *)
Fixpoint sends (tr : list event) : list fileLines :=
  match tr with
  | [] => []
  | EvSend r :: tr' => r :: sends tr'
  | _ :: tr' => sends tr'
  end.

(** The table a sequence of events renders, if any. *)
Fixpoint rendered (tr : list event) : option Table :=
  match tr with
  | [] => None
  | EvRender t :: _ => Some t
  | _ :: tr' => rendered tr'
  end.

(* ------------------------------------------------------------------ *)
(** ** Package [bufio]: what a [Scanner] over a file delivers

    Model of the library: a scanner with the default split function
    delivers the lines of the file one per successful [Scan()], each with
    the value [Err()] has at that moment (non-nil only after a failed
    read whose buffered rest is still delivered), and then [Scan()]
    returns false, with [Err()] nil at the end of the file and non-nil
    when scanning stopped early (a read error, or [bufio.ErrTooLong] for a
    line over [bufio.MaxScanTokenSize] = 65536 bytes). *)

Module bufio.

Record Scanner := {
  tokens : list (string * option error);
  stopErr : option error
}.

Definition ErrTooLong : error := "bufio.Scanner: token too long".

End bufio.

(* ------------------------------------------------------------------ *)
(** ** Package [path/filepath]: [Walk]

    Model of the library.  A [tree] is what [Walk] finds at a path:
    [os.Lstat] fails ([NoStat]), or the path is not a directory ([File]),
    or it is a directory whose names cannot be read ([DirUnreadable]) or
    can ([Dir], each entry with the path [Join(path, name)] the walk
    gives it, in the lexical order of the walk).  [walk] and [Walk]
    follow the library's functions of the same names as current Go
    releases have them: a directory is read before the callback is
    called for it, once; every error goes to the callback, and only what
    the callback returns can stop the walk.  Errors are compared by
    their message, which tells [SkipDir] and [SkipAll] from the others. *)

Module filepath.

Definition SkipDir : error := "skip this directory".
Definition SkipAll : error := "skip everything and stop the walk".

(** [os.FileInfo], as far as the walk looks at it. *)
Record FileInfo := { IsDir : bool }.

#[warnings="-register-all"] Inductive tree :=
| File
| Dir (entries : list (string * tree))
| DirUnreadable (err : error)
| NoStat (err : error).

Definition WalkFunc : Type :=
  string -> option FileInfo -> option error -> M (option error).

Definition isDir (t : tree) : bool :=
  match t with
  | Dir _ | DirUnreadable _ => true
  | File | NoStat _ => false
  end.

(** Whether the loop over a directory's names returns the error [err]
    that visiting the entry [t] gave, or goes on to the next name. *)
Definition stops (t : tree) (err : option error) : bool :=
  match err with
  | None => false
  | Some e =>
      match t with
      | NoStat _ => negb (String.eqb e SkipDir)
      | _ => negb (isDir t) || negb (String.eqb e SkipDir)
      end
  end.

Fixpoint walk (fn : WalkFunc) (path : string) (t : tree) {struct t}
  : M (option error) :=
  match t with
  | NoStat err => fn path None (Some err)
  | File => fn path (Some {| IsDir := false |}) None
  | DirUnreadable err => fn path (Some {| IsDir := true |}) (Some err)
  | Dir entries =>
      err1 <- fn path (Some {| IsDir := true |}) None ;;
      match err1 with
      | Some _ => ret err1
      | None =>
          (fix loop (l : list (string * tree)) : M (option error) :=
             match l with
             | [] => ret None
             | (filename, t') :: rest =>
                 err <- walk fn filename t' ;;
                 if stops t' err then ret err else loop rest
             end) entries
      end
  end.

(** The loop of [walk] over the names of a directory. *)
Fixpoint walkEntries (fn : WalkFunc) (l : list (string * tree))
  : M (option error) :=
  match l with
  | [] => ret None
  | (filename, t') :: rest =>
      err <- walk fn filename t' ;;
      if stops t' err then ret err else walkEntries fn rest
  end.

(** The error the walk meets at an entry it cannot look into. *)
Definition failed (t : tree) : option error :=
  match t with
  | NoStat err | DirUnreadable err => Some err
  | File | Dir _ => None
  end.

(** The calls [fn(path, info, err)] of a walk that nothing stops, in
    order, as pairs of [path] and [err]. *)
Fixpoint visits (path : string) (t : tree) {struct t}
  : list (string * option error) :=
  match t with
  | File => [(path, None)]
  | NoStat err | DirUnreadable err => [(path, Some err)]
  | Dir entries =>
      (path, None)
      :: (fix each (l : list (string * tree)) : list (string * option error) :=
            match l with
            | [] => []
            | (filename, t') :: rest => visits filename t' ++ each rest
            end) entries
  end.

Definition Walk (lstat : string -> tree) (root : string) (fn : WalkFunc)
  : M (option error) :=
  err <- walk fn root (lstat root) ;;
  match err with
  | Some e =>
      if String.eqb e SkipDir || String.eqb e SkipAll then ret None
      else ret err
  | None => ret None
  end.

End filepath.

(** Induction over a tree whose directories hold lists of trees. *)
Fixpoint tree_entries_ind (P : filepath.tree -> Prop)
         (HFile : P filepath.File)
         (HDir : forall entries,
             Forall (fun pt => P (snd pt)) entries -> P (filepath.Dir entries))
         (HUnreadable : forall err, P (filepath.DirUnreadable err))
         (HNoStat : forall err, P (filepath.NoStat err))
         (t : filepath.tree) {struct t} : P t :=
  match t with
  | filepath.File => HFile
  | filepath.DirUnreadable err => HUnreadable err
  | filepath.NoStat err => HNoStat err
  | filepath.Dir entries =>
      HDir entries
        ((fix each (l : list (string * filepath.tree))
            : Forall (fun pt => P (snd pt)) l :=
            match l with
            | [] => Forall_nil _
            | (filename, t') :: rest =>
                Forall_cons (filename, t')
                  (tree_entries_ind P HFile HDir HUnreadable HNoStat t')
                  (each rest)
            end) entries)
  end.

(* ------------------------------------------------------------------ *)
(** ** [getFileStats] *)

Section Sloc.

(** [os.Open] on the file system the program runs on: an error, or a
    file, given by what a scanner reads from it. *)
Variable os_Open : string -> error + bufio.Scanner.

(** What [filepath.Walk] finds at each path of the command line. *)
Variable os_Lstat : string -> filepath.tree.

(** [os.Stat]: an error, or the info of the file at the path. *)
Variable os_Stat : string -> error + filepath.FileInfo.

(** [isDirectory] (the program never calls it). *)
Definition isDirectory (path : string) : bool * option error :=
  match os_Stat path with
  | inl err => (false, Some err)
  | inr fileInfo => (filepath.IsDir fileInfo, None)
  end.

(** The body of the [for scanner.Scan()] loop after the error check:
    lines 60 to 77.  The state is [res] and [inComment]. *)
Definition scanLine (res : fileLines) (inComment : bool) (line : string)
  : fileLines * bool :=
  let line := strings.TrimSpace line in
  if (String.length line =? 0)%nat then
    (incWhitespace res, inComment)
  else if strings.HasPrefix line "//" then
    (incComment res, inComment)
  else if strings.HasPrefix line "/*" then
    (incComment res,
     if negb (strings.HasSuffix line "*/") then true else inComment)
  else if inComment then
    (incComment res,
     if strings.HasSuffix line "*/" then false else inComment)
  else
    (incCode res, inComment).

(** The loop [for scanner.Scan() { ... }] and the [return res] after it:
    the loop ends when [Scan()] returns false, whatever [Err()] is then. *)
Fixpoint scanLoop (toks : list (string * option error))
         (res : fileLines) (inComment : bool) : M fileLines :=
  match toks with
  | [] => ret res
  | (line, Some err) :: _ => Fatal err
  | (line, None) :: rest =>
      let '(res', inComment') := scanLine res inComment line in
      scanLoop rest res' inComment'
  end.

Definition getFileStats (name : string) : M fileLines :=
  match os_Open name with
  | inl err => Fatal err
  | inr file =>
      scanLoop (bufio.tokens file)
               {| filename := name; codeLines := 0;
                  commentLines := 0; whitespaceLines := 0 |}
               false
  end.

(** [genFileProcessor(out)]: the callback given to [filepath.Walk].
    The channel [out] is the [EvSend] events of the computation. *)
Definition genFileProcessor : filepath.WalkFunc :=
  fun path info err =>
    if negb (strings.HasSuffix path ".go") then
      logf DEBUG ["ignoring"; path] ;;;
      ret None
    else
      match err with
      | Some e =>
          logf ERROR [e] ;;;
          ret None
      | None =>
          logf DEBUG ["fileProcessor"; path] ;;;
          res <- getFileStats path ;;
          emit (EvSend res) ;;;
          ret None
      end.

Definition newline : string := String "010" EmptyString.

(** [fmt.Sprintf("%+v\n", res)] *)
Definition showFileLines (res : fileLines) : string :=
  ("{filename:" ++ filename res
   ++ " codeLines:" ++ Itoa (codeLines res)
   ++ " commentLines:" ++ Itoa (commentLines res)
   ++ " whitespaceLines:" ++ Itoa (whitespaceLines res)
   ++ "}" ++ newline)%string.

(** The row appended to [data] for one record. *)
Definition row (res : fileLines) : list string :=
  [ filename res;
    Itoa (whitespaceLines res);
    Itoa (commentLines res);
    Itoa (codeLines res) ].

(** [for res := range results { ... }] over the records received until
    the channel is closed; gives [total] and [data] after the loop. *)
Fixpoint rangeResults (results : list fileLines)
         (total : fileLines) (data : list (list string))
  : M (fileLines * list (list string)) :=
  match results with
  | [] => ret (total, data)
  | res :: rest =>
      logf INFO [showFileLines res] ;;;
      rangeResults rest (join total res) (data ++ [row res])
  end.

(** [processResults(results, done)], run on the records the channel
    delivers; it returns after [done <- true]. *)
Definition processResults (results : list fileLines) : M unit :=
  st <- rangeResults results
          {| filename := "TOTAL"; codeLines := 0;
             commentLines := 0; whitespaceLines := 0 |} [] ;;
  let '(total, data) := st in
  emit (EvPrint newline) ;;;
  emit (EvRender
          {| header := ["FILENAME"; "White Space"; "Comment"; "Code"];
             footer := [ filename total;
                         Itoa (whitespaceLines total);
                         Itoa (commentLines total);
                         Itoa (codeLines total) ];
             border := false;
             rows := data |}) ;;;
  ret tt.

Definition loggingLevels : list (string * Level) :=
  [ ("CRITICAL", CRITICAL); ("DEBUG", DEBUG); ("ERROR", ERROR);
    ("INFO", INFO); ("NOTICE", NOTICE); ("WARNING", WARNING) ].

Definition levelName (l : Level) : string :=
  match l with
  | CRITICAL => "CRITICAL" | ERROR => "ERROR" | WARNING => "WARNING"
  | NOTICE => "NOTICE" | INFO => "INFO" | DEBUG => "DEBUG"
  end.

Fixpoint lookup (k : string) (m : list (string * Level)) : option Level :=
  match m with
  | [] => None
  | (k', v) :: m' => if String.eqb k k' then Some v else lookup k m'
  end.

(** [for _, file := range files { ... }] of [main] *)
Fixpoint walkFiles (files : list string) : M unit :=
  match files with
  | [] => ret tt
  | file :: rest =>
      logf DEBUG ["processing"; file] ;;;
      err <- filepath.Walk os_Lstat file genFileProcessor ;;
      match err with
      | Some e => Fatal e
      | None => walkFiles rest
      end
  end.

(** The main goroutine, from the parsed flags ([loggingFlag] is the
    value of [-loglevel], [files] is [flag.Args()]) to [close(results)]. *)
Definition main (loggingFlag : string) (files : list string) : M unit :=
  match lookup loggingFlag loggingLevels with
  | None =>
      (* the zero value of logging.Level prints as CRITICAL *)
      Fatal ("Invalid log level: found " ++ levelName CRITICAL)%string
  | Some loggingLevel =>
      emit (EvPrint ("loggingLevel " ++ levelName loggingLevel
                     ++ newline)%string) ;;;
      logf NOTICE ["notice"] ;;;
      logf WARNING ["warning"] ;;;
      logf ERROR ["err"] ;;;
      logf CRITICAL ["crit"] ;;;
      walkFiles files
  end.

(** A run of the program.  The results channel is unbuffered and has
    one sender and one receiver, so [processResults] receives the
    records in the order [main] sends them.  It renders the table only
    after [close(results)]; when [main] ends in [log.Fatal] the process
    exits while [processResults] is still in its loop. *)
Inductive run :=
| Aborted (mainEvents : list event)
| Completed (mainEvents : list event) (resultEvents : list event).

Definition sloc (loggingFlag : string) (files : list string) : run :=
  match main loggingFlag files with
  | (tr, Exit) => Aborted tr
  | (tr, Ret _) => Completed tr (trace (processResults (sends tr)))
  end.

(** The table a run prints, if it prints one. *)
Definition report (r : run) : option Table :=
  match r with
  | Aborted _ => None
  | Completed _ tr => rendered tr
  end.

(** What a visit of the walk sends: the record of the path when it
    ends in [.go], came without error and its scan returned. *)
Definition sent (visit : string * option error) : list fileLines :=
  match visit with
  | (path, None) =>
      if strings.HasSuffix path ".go" then
        match result (getFileStats path) with
        | Ret res => [res]
        | Exit => []
        end
      else []
  | (_, Some _) => []
  end.

(** A visit the program gets through: a path ending in [.go] that came
    without error is a file whose scan returns. *)
Definition scans (visit : string * option error) : Prop :=
  match visit with
  | (path, None) =>
      strings.HasSuffix path ".go" = true ->
      exists res, result (getFileStats path) = Ret res
  | (_, Some _) => True
  end.

(** What the callback logs for a visit that came with the error [e]. *)
Definition skipLog (path : string) (e : error) : event :=
  if strings.HasSuffix path ".go" then EvLog ERROR [e]
  else EvLog DEBUG ["ignoring"; path].

End Sloc.

(* ------------------------------------------------------------------ *)
(** ** Files and directories used by the examples *)

(** A file read to its end without error, line by line. *)
Definition fileOf (lines : list string) : bufio.Scanner :=
  {| bufio.tokens := map (fun l => (l, None)) lines;
     bufio.stopErr := None |}.

Definition tooLong : string := "proj/long.go".

(** [proj/long.go] holds [package main] and then a line of more than
    65536 bytes, where the scanner gives up. *)
Definition demoOpen (name : string) : error + bufio.Scanner :=
  if String.eqb name "proj/a.go" then
    inr (fileOf ["package main"; ""; "func main() {"; "}"])
  else if String.eqb name "proj/b.go" then
    inr (fileOf ["// Package b is empty."; "/* nothing here */"])
  else if String.eqb name "work/c.go" then
    inr (fileOf ["/* start"; "middle"; "end */"; "var x = 1"])
  else if String.eqb name "work/d.go" then
    inr (fileOf ["/* start"; "// end */"; "var x = 1"])
  else if String.eqb name tooLong then
    inr {| bufio.tokens := [("package main", None)];
           bufio.stopErr := Some bufio.ErrTooLong |}
  else
    inl ("open " ++ name ++ ": no such file or directory")%string.

Definition demoLstat (root : string) : filepath.tree :=
  if String.eqb root "proj" then
    filepath.Dir [ ("proj/a.go", filepath.File);
                   ("proj/b.go", filepath.File);
                   ("proj/readme.txt", filepath.File) ]
  else if String.eqb root "work" then
    filepath.Dir
      [ ("work/c.go", filepath.File);
        ("work/locked",
         filepath.DirUnreadable "open work/locked: permission denied") ]
  else if String.eqb root tooLong then
    filepath.File
  else
    filepath.NoStat ("lstat " ++ root ++ ": no such file or directory")%string.

(** The sum of a counter over records, in the integers. *)
Definition sumOf (f : fileLines -> Z) (rs : list fileLines) : Z :=
  fold_right (fun r acc => f r + acc) 0 rs.

(** The three counters of a record are not negative. *)
Definition counted (res : fileLines) : Prop :=
  0 <= codeLines res /\ 0 <= commentLines res /\ 0 <= whitespaceLines res.

Definition lineCount (res : fileLines) : Z :=
  codeLines res + commentLines res + whitespaceLines res.

(** The callback called on each visit of a list in turn, as long as
    the process lives.  (The callback does not look at the file info.) *)
Fixpoint visitAll (os_Open : string -> error + bufio.Scanner)
         (vs : list (string * option error)) : M (option error) :=
  match vs with
  | [] => ret None
  | (path, err) :: rest =>
      genFileProcessor os_Open path None err ;;;
      visitAll os_Open rest
  end.

(** The visits of the walks of all the roots of the command line. *)
Definition allVisits (os_Lstat : string -> filepath.tree)
           (files : list string) : list (string * option error) :=
  flat_map (fun root => filepath.visits root (os_Lstat root)) files.

(** A visit at which the process exits: a path ending in [.go] that
    came without error and whose scan is fatal. *)
Definition fails (os_Open : string -> error + bufio.Scanner)
           (visit : string * option error) : Prop :=
  match visit with
  | (path, None) =>
      strings.HasSuffix path ".go" = true
      /\ result (getFileStats os_Open path) = Exit
  | (_, Some _) => False
  end.

(** [n] times [x++]. *)
Definition incrBy (n : nat) (x : Z) : Z := Nat.iter n GoInt.incr x.

(** A record after [code], [comment] and [ws] more lines of each kind. *)
Definition addLines (code comment ws : nat) (res : fileLines) : fileLines :=
  {| filename := filename res;
     codeLines := incrBy code (codeLines res);
     commentLines := incrBy comment (commentLines res);
     whitespaceLines := incrBy ws (whitespaceLines res) |}.

(** Lines the scanner delivers without error. *)
Definition delivered (lines : list string) : list (string * option error) :=
  map (fun l => (l, None)) lines.

(** The test [len(line) == 0] on the trimmed line. *)
Definition isBlank (line : string) : bool :=
  (String.length (strings.TrimSpace line) =? 0)%nat.

Definition blanks (lines : list string) : nat :=
  List.length (filter isBlank lines).

Definition nonBlanks (lines : list string) : nat :=
  List.length (filter (fun l => negb (isBlank l)) lines).

(* ------------------------------------------------------------------ *)
(** ** Arithmetic of [int] *)

Lemma wrap_in_range (x : Z) : GoInt.in_range x -> GoInt.wrap x = x.
Proof.
  unfold GoInt.in_range, GoInt.minInt, GoInt.maxInt, GoInt.wrap.
  intros H. rewrite Z.mod_small; lia.
Qed.

Lemma wrap_mod (x : Z) : GoInt.wrap x mod 2 ^ 64 = x mod 2 ^ 64.
Proof.
  unfold GoInt.wrap.
  rewrite Zminus_mod, Z.mod_mod by lia.
  rewrite <- Zminus_mod. f_equal. lia.
Qed.

Lemma wrap_congr (x y : Z) :
  x mod 2 ^ 64 = y mod 2 ^ 64 -> GoInt.wrap x = GoInt.wrap y.
Proof.
  intros H. unfold GoInt.wrap.
  rewrite (Zplus_mod x), (Zplus_mod y), H. reflexivity.
Qed.

Lemma add_wrap_l (x y : Z) : GoInt.add (GoInt.wrap x) y = GoInt.wrap (x + y).
Proof.
  unfold GoInt.add. apply wrap_congr.
  rewrite Zplus_mod, wrap_mod, <- Zplus_mod. reflexivity.
Qed.

Lemma incr_small (x : Z) :
  0 <= x < GoInt.maxInt -> GoInt.incr x = x + 1.
Proof.
  intros H. unfold GoInt.incr, GoInt.add. apply wrap_in_range.
  unfold GoInt.in_range, GoInt.minInt, GoInt.maxInt in *. lia.
Qed.

(* ------------------------------------------------------------------ *)
(** ** The monad *)

Lemma bind_ret_l {A B} (a : A) (k : A -> M B) : bind (ret a) k = k a.
Proof. unfold bind, ret. destruct (k a). reflexivity. Qed.

Lemma bind_emit {B} (e : event) (k : unit -> M B) :
  bind (emit e) k = (e :: trace (k tt), result (k tt)).
Proof. unfold bind, emit, trace, result. destruct (k tt). reflexivity. Qed.

Lemma trace_bind {A B} (m : M A) (k : A -> M B) :
  trace (bind m k) =
  match result m with
  | Ret a => trace m ++ trace (k a)
  | Exit => trace m
  end.
Proof.
  destruct m as [tr [a|]]; unfold bind, trace, result; simpl; auto.
  destruct (k a); reflexivity.
Qed.

Lemma result_bind {A B} (m : M A) (k : A -> M B) :
  result (bind m k) =
  match result m with
  | Ret a => result (k a)
  | Exit => Exit
  end.
Proof.
  destruct m as [tr [a|]]; unfold bind, trace, result; simpl; auto.
  destruct (k a); reflexivity.
Qed.

Lemma sends_app (tr1 tr2 : list event) :
  sends (tr1 ++ tr2) = sends tr1 ++ sends tr2.
Proof.
  induction tr1 as [|e tr1 IH]; simpl; auto.
  destruct e; simpl; rewrite IH; reflexivity.
Qed.

(* ------------------------------------------------------------------ *)
(** ** Strings *)

Lemma length_zero_empty (s : string) :
  (String.length s =? 0)%nat = true <-> s = "".
Proof.
  destruct s; simpl; split; intros H; try reflexivity; discriminate.
Qed.

(** A line cannot start with both comment markers. *)
Lemma line_comment_not_block_open (s : string) :
  strings.HasPrefix s "//" = true -> strings.HasPrefix s "/*" = false.
Proof.
  unfold strings.HasPrefix.
  destruct s as [|a [|b s]]; simpl; try discriminate.
  destruct (Ascii.eqb_spec a "/"); simpl; try discriminate.
  destruct (Ascii.eqb_spec b "/"); simpl; try discriminate.
  subst. reflexivity.
Qed.

Lemma block_open_not_line_comment (s : string) :
  strings.HasPrefix s "/*" = true -> strings.HasPrefix s "//" = false.
Proof.
  intros H. destruct (strings.HasPrefix s "//") eqn:E; auto.
  apply line_comment_not_block_open in E. congruence.
Qed.

Lemma prefix_not_empty (s p : string) :
  p <> "" -> strings.HasPrefix s p = true -> s <> "".
Proof.
  intros Hp H ->. unfold strings.HasPrefix in H.
  destruct p; [congruence | simpl in H; discriminate].
Qed.

Lemma HasSuffix_cons (c : ascii) (s suffix : string) :
  (String.length suffix <= String.length s)%nat ->
  strings.HasSuffix (String c s) suffix = strings.HasSuffix s suffix.
Proof.
  intros H. unfold strings.HasSuffix. cbn [String.length].
  replace (S (String.length s) - String.length suffix)%nat
    with (S (String.length s - String.length suffix)) by lia.
  cbn [substring].
  replace (String.length suffix <=? S (String.length s))%nat with true
    by (symmetry; apply Nat.leb_le; lia).
  replace (String.length suffix <=? String.length s)%nat with true
    by (symmetry; apply Nat.leb_le; lia).
  reflexivity.
Qed.

Lemma length_app (s1 s2 : string) :
  String.length (s1 ++ s2) = (String.length s1 + String.length s2)%nat.
Proof.
  induction s1 as [|c s1 IH]; simpl; auto.
Qed.

(** X19: the callback tests the path the walk gives it, [Join(dir,
    name)], which ends in a separator and the name: the path ends in
    [.go] exactly when the name of the file does, whatever the directory
    is called. *)
Lemma go_suffix_of_joined_path (dir name : string) :
  name <> "" ->
  strings.HasSuffix (dir ++ "/" ++ name) ".go"
  = strings.HasSuffix name ".go".
Proof.
  intros Hname. induction dir as [|c dir IH].
  - destruct name as [|a [|b [|d name]]]; try reflexivity.
    change ("" ++ "/" ++ String a (String b (String d name)))%string
      with (String "/" (String a (String b (String d name)))).
    apply HasSuffix_cons. simpl. lia.
  - change (String c dir ++ "/" ++ name)%string
      with (String c (dir ++ "/" ++ name)).
    destruct dir as [|c' dir]; [destruct name as [|a [|b name]]|].
    + contradiction.
    + unfold strings.HasSuffix. simpl.
      destruct (Ascii.eqb c "."); reflexivity.
    + rewrite HasSuffix_cons by (simpl; lia). exact IH.
    + rewrite HasSuffix_cons; [exact IH|].
      rewrite length_app. destruct name; [contradiction | simpl; lia].
Qed.

(* ------------------------------------------------------------------ *)
(** ** One line *)

(** Every line increments exactly one of the three counters, whatever
    the state. *)
Lemma scanLine_one_counter (res : fileLines) (inComment : bool) (line : string) :
  let res' := fst (scanLine res inComment line) in
  res' = incWhitespace res \/ res' = incComment res \/ res' = incCode res.
Proof.
  unfold scanLine; cbv zeta.
  destruct (String.length (strings.TrimSpace line) =? 0)%nat; simpl; auto.
  destruct (strings.HasPrefix (strings.TrimSpace line) "//"); simpl; auto.
  destruct (strings.HasPrefix (strings.TrimSpace line) "/*"); simpl; auto.
  destruct inComment; simpl; auto.
Qed.

Lemma scanLine_counts_one (res : fileLines) (inComment : bool) (line : string) :
  counted res ->
  lineCount res < GoInt.maxInt ->
  let res' := fst (scanLine res inComment line) in
  counted res' /\ lineCount res' = lineCount res + 1
  /\ filename res' = filename res.
Proof.
  intros (Hc & Hm & Hw) Hlt res'.
  unfold lineCount in *.
  destruct (scanLine_one_counter res inComment line) as [E | [E | E]];
    fold res' in E; rewrite E; unfold counted; simpl;
    rewrite incr_small by lia; repeat split; lia.
Qed.

(** Inside a block comment every non-blank line is a comment line, and
    the comment is closed exactly by a line that ends with the close
    marker and starts with neither comment marker. *)
Lemma scanLine_in_comment (res : fileLines) (line : string) :
  let t := strings.TrimSpace line in
  t <> "" ->
  scanLine res true line =
  (incComment res,
   strings.HasPrefix t "//" || strings.HasPrefix t "/*"
   || negb (strings.HasSuffix t "*/")).
Proof.
  intros t Hne. unfold scanLine; cbv zeta; fold t.
  destruct (String.length t =? 0)%nat eqn:E0.
  { apply length_zero_empty in E0. contradiction. }
  destruct (strings.HasPrefix t "//") eqn:E1; simpl; auto.
  destruct (strings.HasPrefix t "/*") eqn:E2; simpl.
  - destruct (strings.HasSuffix t "*/"); reflexivity.
  - destruct (strings.HasSuffix t "*/"); reflexivity.
Qed.

(* ------------------------------------------------------------------ *)
(** ** One file *)

Lemma scanLoop_counts (toks : list (string * option error)) :
  forall (res : fileLines) (inComment : bool) tr res',
    counted res ->
    lineCount res + Z.of_nat (List.length toks) <= GoInt.maxInt ->
    scanLoop toks res inComment = (tr, Ret res') ->
    counted res'
    /\ lineCount res' = lineCount res + Z.of_nat (List.length toks)
    /\ filename res' = filename res
    /\ Forall (fun t => snd t = None) toks.
Proof.
  induction toks as [|[line [err|]] rest IH]; intros res inComment tr res' Hc Hle Hrun.
  - inversion Hrun; subst. cbn [List.length Z.of_nat].
    repeat split; try apply Hc; try lia. constructor.
  - simpl in Hrun. discriminate.
  - cbn [scanLoop] in Hrun.
    cbn [List.length] in Hle. rewrite Nat2Z.inj_succ in Hle.
    destruct (scanLine_counts_one res inComment line Hc) as (Hc' & Hn' & Hf');
      [lia|].
    destruct (scanLine res inComment line) as [res1 inComment1] eqn:E.
    simpl in Hc', Hn', Hf'.
    destruct (IH res1 inComment1 tr res' Hc') as (H1 & H2 & H3 & H4);
      [lia | exact Hrun |].
    cbn [List.length]. rewrite Nat2Z.inj_succ.
    split; [exact H1|]. split; [lia|]. split; [congruence|].
    constructor; [reflexivity | exact H4].
Qed.

(** A file that opens and whose scanner reports no error inside the
    loop is scanned without any diagnostic, and the record is returned,
    whatever [Err()] is once [Scan()] has returned false. *)
Lemma scanLoop_returns (toks : list (string * option error)) :
  forall (res : fileLines) (inComment : bool),
    Forall (fun t => snd t = None) toks ->
    exists res', scanLoop toks res inComment = ([], Ret res').
Proof.
  induction toks as [|[line err] rest IH]; intros res inComment Hall.
  - exists res. reflexivity.
  - inversion Hall as [|? ? Hhd Htl]; subst. simpl in Hhd. subst err.
    cbn [scanLoop]. destruct (scanLine res inComment line) as [res1 c1].
    apply IH; assumption.
Qed.

(** A file that cannot be opened is fatal: nothing is returned. *)
Lemma getFileStats_open_error
      (os_Open : string -> error + bufio.Scanner) (name : string) (err : error) :
  os_Open name = inl err ->
  getFileStats os_Open name = ([EvLog CRITICAL [err]], Exit).
Proof.
  intros H. unfold getFileStats. rewrite H. reflexivity.
Qed.

(** An error the scanner shows together with a line is fatal: nothing is
    returned, whatever was counted before. *)
Lemma scanLoop_error_in_loop (before : list string) (line : string)
      (err : error) (rest : list (string * option error)) :
  forall res inComment,
    scanLoop (map (fun l => (l, None)) before ++ (line, Some err) :: rest)
             res inComment
    = ([EvLog CRITICAL [err]], Exit).
Proof.
  induction before as [|l before IH]; intros res inComment.
  - reflexivity.
  - cbn [map app scanLoop]. destruct (scanLine res inComment l). apply IH.
Qed.

(** The scanner's error after the loop plays no part in [getFileStats]. *)
Lemma getFileStats_ignores_stopErr
      (open1 open2 : string -> error + bufio.Scanner) (name : string)
      (toks : list (string * option error)) (e1 e2 : option error) :
  open1 name = inr {| bufio.tokens := toks; bufio.stopErr := e1 |} ->
  open2 name = inr {| bufio.tokens := toks; bufio.stopErr := e2 |} ->
  getFileStats open1 name = getFileStats open2 name.
Proof.
  intros H1 H2. unfold getFileStats. rewrite H1, H2. reflexivity.
Qed.

(** C1: for every file that is scanned successfully, the record
    [getFileStats] returns satisfies [codeLines + commentLines +
    whitespaceLines] = the number of lines read from the file; each line
    read increments exactly one of the three counters.  (The number of
    lines is below 2^63, as the size of any file is.) *)
Theorem getFileStats_counts_every_line
        (os_Open : string -> error + bufio.Scanner) (name : string)
        (file : bufio.Scanner) (tr : list event) (res : fileLines) :
  os_Open name = inr file ->
  Z.of_nat (List.length (bufio.tokens file)) <= GoInt.maxInt ->
  getFileStats os_Open name = (tr, Ret res) ->
  codeLines res + commentLines res + whitespaceLines res
  = Z.of_nat (List.length (bufio.tokens file))
  /\ counted res
  /\ forall r c line,
       let r' := fst (scanLine r c line) in
       r' = incWhitespace r \/ r' = incComment r \/ r' = incCode r.
Proof.
  intros Hopen Hlen Hrun. unfold getFileStats in Hrun. rewrite Hopen in Hrun.
  apply scanLoop_counts in Hrun.
  - destruct Hrun as (Hc & Hn & _ & _). unfold lineCount in Hn. simpl in Hn.
    repeat split; try apply Hc; try lia.
    intros r c line. apply scanLine_one_counter.
  - unfold counted; simpl; lia.
  - unfold lineCount; simpl; lia.
Qed.

Lemma getFileStats_counts_every_line_witness :
  demoOpen "proj/a.go"
  = inr (fileOf ["package main"; ""; "func main() {"; "}"])
  /\ getFileStats demoOpen "proj/a.go"
     = ([], Ret {| filename := "proj/a.go"; codeLines := 3;
                   commentLines := 0; whitespaceLines := 1 |})
  /\ 3 + 0 + 1 = Z.of_nat 4.
Proof.
  split; [reflexivity|]. split; [reflexivity|].
  apply (getFileStats_counts_every_line demoOpen "proj/a.go"
           (fileOf ["package main"; ""; "func main() {"; "}"]) []
           {| filename := "proj/a.go"; codeLines := 3;
              commentLines := 0; whitespaceLines := 1 |}).
  - reflexivity.
  - vm_compute. discriminate.
  - reflexivity.
Defined.

(** C2, where the code departs from it: inside a block comment a line
    that ends with the close marker must close the comment whatever it
    starts with.  In [scanLine] the two prefix tests come before the test
    of [inComment], so the line [// end */] read inside a block comment
    is counted as a comment but leaves [inComment] set, and the code line
    after it is counted as a comment too. *)
Theorem close_marker_missed_after_comment_prefix :
  strings.TrimSpace "// end */" = "// end */"
  /\ strings.HasSuffix "// end */" "*/" = true
  /\ (forall res, scanLine res true "// end */" = (incComment res, true))
  /\ (forall res, scanLine res true "/* again */" = (incComment res, true))
  /\ (forall res, scanLine res true "end */" = (incComment res, false))
  /\ getFileStats demoOpen "work/d.go"
     = ([], Ret {| filename := "work/d.go"; codeLines := 0;
                   commentLines := 3; whitespaceLines := 0 |}).
Proof.
  repeat split; reflexivity.
Qed.

(** C4, where the code departs from it: a scan must give either a
    record that covers every line of the file or a fatal failure.
    [getFileStats] tests [scanner.Err()] only inside the loop, so when
    [Scan()] returns false because of an error (here a line over 65536
    bytes after the first line) it returns the record of the lines read
    so far, logs nothing, and the run prints it as a row. *)
Theorem partial_record_when_scanner_stops_early :
  demoOpen tooLong
  = inr {| bufio.tokens := [("package main", None)];
           bufio.stopErr := Some bufio.ErrTooLong |}
  /\ getFileStats demoOpen tooLong
     = ([], Ret {| filename := tooLong; codeLines := 1;
                   commentLines := 0; whitespaceLines := 0 |})
  /\ report (sloc demoOpen demoLstat "INFO" [tooLong])
     = Some {| header := ["FILENAME"; "White Space"; "Comment"; "Code"];
               footer := ["TOTAL"; "0"; "0"; "1"];
               border := false;
               rows := [[tooLong; "0"; "0"; "1"]] |}.
Proof.
  repeat split; reflexivity.
Qed.

(** C6: a trimmed line that starts with the line-comment marker [//] is
    counted as a comment by the line-comment rule and leaves [inComment]
    as it was; such a line never reaches the block-comment branch, even
    when it contains the open marker.  (It holds in either state, so in
    particular outside a block comment.) *)
Theorem line_comment_rule
        (res : fileLines) (inComment : bool) (line : string) :
  strings.HasPrefix (strings.TrimSpace line) "//" = true ->
  scanLine res inComment line = (incComment res, inComment)
  /\ strings.HasPrefix (strings.TrimSpace line) "/*" = false.
Proof.
  intros H. split; [|apply line_comment_not_block_open; exact H].
  unfold scanLine; cbv zeta.
  destruct (String.length (strings.TrimSpace line) =? 0)%nat eqn:E0.
  - apply length_zero_empty in E0. rewrite E0 in H. discriminate.
  - rewrite H. reflexivity.
Qed.

Lemma line_comment_rule_witness :
  strings.HasPrefix (strings.TrimSpace "// not /* a block comment */") "//"
  = true
  /\ scanLine (mkFileLines "f.go" 0 0 0) false "// not /* a block comment */"
     = (mkFileLines "f.go" 0 1 0, false).
Proof.
  split; [reflexivity|].
  apply (line_comment_rule (mkFileLines "f.go" 0 0 0) false
           "// not /* a block comment */").
  reflexivity.
Defined.

(** C7: outside a block comment, a trimmed line that starts with the
    open marker and ends with the close marker is counted once, as a
    comment, and [inComment] stays false for the next line. *)
Theorem one_line_block_comment (res : fileLines) (line : string) :
  strings.HasPrefix (strings.TrimSpace line) "/*" = true ->
  strings.HasSuffix (strings.TrimSpace line) "*/" = true ->
  scanLine res false line = (incComment res, false).
Proof.
  intros Hp Hs. unfold scanLine; cbv zeta.
  destruct (String.length (strings.TrimSpace line) =? 0)%nat eqn:E0.
  - apply length_zero_empty in E0. rewrite E0 in Hp. discriminate.
  - rewrite (block_open_not_line_comment _ Hp), Hp, Hs. reflexivity.
Qed.

Lemma one_line_block_comment_witness :
  strings.HasPrefix (strings.TrimSpace "/* comment */") "/*" = true
  /\ strings.HasSuffix (strings.TrimSpace "/* comment */") "*/" = true
  /\ scanLine (mkFileLines "f.go" 0 0 0) false "/* comment */"
     = (mkFileLines "f.go" 0 1 0, false).
Proof.
  split; [reflexivity|]. split; [reflexivity|].
  apply (one_line_block_comment (mkFileLines "f.go" 0 0 0) "/* comment */");
    reflexivity.
Defined.

(** C10: outside a block comment, a non-empty trimmed line that starts
    with neither [//] nor the open marker is counted as code and leaves
    [inComment] false, also when it contains or ends with the close
    marker. *)
Theorem stray_close_marker_is_code (res : fileLines) (line : string) :
  strings.TrimSpace line <> "" ->
  strings.HasPrefix (strings.TrimSpace line) "//" = false ->
  strings.HasPrefix (strings.TrimSpace line) "/*" = false ->
  scanLine res false line = (incCode res, false).
Proof.
  intros Hne H1 H2. unfold scanLine; cbv zeta.
  destruct (String.length (strings.TrimSpace line) =? 0)%nat eqn:E0.
  - apply length_zero_empty in E0. contradiction.
  - rewrite H1, H2. reflexivity.
Qed.

Lemma stray_close_marker_is_code_witness :
  strings.TrimSpace "  x := 1 */" <> ""
  /\ strings.HasSuffix (strings.TrimSpace "  x := 1 */") "*/" = true
  /\ scanLine (mkFileLines "f.go" 0 0 0) false "  x := 1 */"
     = (mkFileLines "f.go" 1 0 0, false).
Proof.
  split; [discriminate|]. split; [reflexivity|].
  apply (stray_close_marker_is_code (mkFileLines "f.go" 0 0 0) "  x := 1 */").
  - discriminate.
  - reflexivity.
  - reflexivity.
Defined.

(* ------------------------------------------------------------------ *)
(** ** The results goroutine *)

Lemma wrap_range (x : Z) : GoInt.in_range (GoInt.wrap x).
Proof.
  unfold GoInt.in_range, GoInt.minInt, GoInt.maxInt, GoInt.wrap.
  pose proof (Z.mod_pos_bound (x + 2 ^ 63) (2 ^ 64)). lia.
Qed.

Lemma sumOf_perm (f : fileLines -> Z) (rs rs' : list fileLines) :
  Permutation rs rs' -> sumOf f rs = sumOf f rs'.
Proof.
  induction 1; simpl; lia.
Qed.

(** A counter of the total after [join]ing records into it, for any
    counter that [join] adds up. *)
Lemma fold_join_counter (f : fileLines -> Z) :
  (forall t r, f (join t r) = GoInt.add (f t) (f r)) ->
  forall rs t,
    GoInt.in_range (f t) ->
    f (fold_left join rs t) = GoInt.wrap (f t + sumOf f rs).
Proof.
  intros Hf. induction rs as [|r rs IH]; intros t Ht; simpl.
  - rewrite Z.add_0_r. symmetry. apply wrap_in_range. exact Ht.
  - rewrite IH.
    + rewrite Hf. unfold GoInt.add at 1.
      change (GoInt.wrap (GoInt.wrap (f t + f r) + sumOf f rs))
        with (GoInt.add (GoInt.wrap (f t + f r)) (sumOf f rs)).
      rewrite add_wrap_l. f_equal. lia.
    + rewrite Hf. apply wrap_range.
Qed.

Lemma fold_join_filename (rs : list fileLines) :
  forall t, filename (fold_left join rs t) = filename t.
Proof.
  induction rs as [|r rs IH]; intros t; simpl; auto.
  rewrite IH. reflexivity.
Qed.

Lemma rangeResults_eq (rs : list fileLines) :
  forall total data,
    rangeResults rs total data
    = (map (fun r => EvLog INFO [showFileLines r]) rs,
       Ret (fold_left join rs total, data ++ map row rs)).
Proof.
  induction rs as [|r rs IH]; intros total data.
  - simpl. rewrite app_nil_r. reflexivity.
  - cbn [rangeResults]. unfold logf. rewrite bind_emit, IH.
    unfold trace, result. cbn [fst snd map fold_left].
    rewrite <- app_assoc. reflexivity.
Qed.

Lemma rendered_after_logs (rs : list fileLines) (tr : list event) :
  rendered (map (fun r => EvLog INFO [showFileLines r]) rs ++ tr)
  = rendered tr.
Proof.
  induction rs as [|r rs IH]; simpl; auto.
Qed.

(** C5: for every finite sequence of records received from the channel,
    in any arrival order, the total row is the sum, counter by counter,
    of all the records received, and the rows are the received records,
    each once, in arrival order: nothing is dropped, merged or moved.
    (The sums are those of [int]: they are taken to fit in 64 bits.) *)
Theorem processResults_sums_every_record (rs : list fileLines) :
  GoInt.in_range (sumOf codeLines rs) ->
  GoInt.in_range (sumOf commentLines rs) ->
  GoInt.in_range (sumOf whitespaceLines rs) ->
  forall arrival,
    Permutation rs arrival ->
    result (rangeResults arrival (mkFileLines "TOTAL" 0 0 0) [])
    = Ret (mkFileLines "TOTAL" (sumOf codeLines rs) (sumOf commentLines rs)
                       (sumOf whitespaceLines rs),
           map row arrival)
    /\ rendered (trace (processResults arrival))
       = Some {| header := ["FILENAME"; "White Space"; "Comment"; "Code"];
                 footer := [ "TOTAL";
                             Itoa (sumOf whitespaceLines rs);
                             Itoa (sumOf commentLines rs);
                             Itoa (sumOf codeLines rs) ];
                 border := false;
                 rows := map row arrival |}
    /\ result (processResults arrival) = Ret tt.
Proof.
  intros Hc Hm Hw arrival Hperm.
  assert (Htotal : fold_left join arrival (mkFileLines "TOTAL" 0 0 0)
                   = mkFileLines "TOTAL" (sumOf codeLines rs)
                       (sumOf commentLines rs) (sumOf whitespaceLines rs)).
  { pose proof (fold_join_filename arrival (mkFileLines "TOTAL" 0 0 0)) as Hn.
    pose proof (fold_join_counter codeLines (fun _ _ => eq_refl) arrival
                  (mkFileLines "TOTAL" 0 0 0)) as H1.
    pose proof (fold_join_counter commentLines (fun _ _ => eq_refl) arrival
                  (mkFileLines "TOTAL" 0 0 0)) as H2.
    pose proof (fold_join_counter whitespaceLines (fun _ _ => eq_refl) arrival
                  (mkFileLines "TOTAL" 0 0 0)) as H3.
    cbn [filename codeLines commentLines whitespaceLines Z.add] in Hn, H1, H2, H3.
    rewrite <- (sumOf_perm codeLines rs arrival Hperm) in H1.
    rewrite <- (sumOf_perm commentLines rs arrival Hperm) in H2.
    rewrite <- (sumOf_perm whitespaceLines rs arrival Hperm) in H3.
    rewrite wrap_in_range in H1, H2, H3 by assumption.
    destruct (fold_left join arrival (mkFileLines "TOTAL" 0 0 0)).
    cbn in Hn, H1, H2, H3. rewrite Hn, H1, H2, H3; try reflexivity;
      unfold GoInt.in_range, GoInt.minInt, GoInt.maxInt; lia. }
  unfold processResults. rewrite rangeResults_eq, Htotal.
  split; [reflexivity|].
  unfold bind, emit, ret, trace, result. cbn [fst snd app].
  rewrite rendered_after_logs. split; reflexivity.
Qed.

Lemma processResults_sums_every_record_witness :
  rendered
    (trace (processResults [ mkFileLines "proj/b.go" 0 2 0;
                             mkFileLines "proj/a.go" 3 0 1 ]))
  = Some {| header := ["FILENAME"; "White Space"; "Comment"; "Code"];
            footer := ["TOTAL"; "1"; "2"; "3"];
            border := false;
            rows := [ ["proj/b.go"; "0"; "2"; "0"];
                      ["proj/a.go"; "1"; "0"; "3"] ] |}
  /\ result (processResults [ mkFileLines "proj/b.go" 0 2 0;
                              mkFileLines "proj/a.go" 3 0 1 ]) = Ret tt.
Proof.
  apply (processResults_sums_every_record
           [ mkFileLines "proj/a.go" 3 0 1; mkFileLines "proj/b.go" 0 2 0 ]).
  - vm_compute. split; discriminate.
  - vm_compute. split; discriminate.
  - vm_compute. split; discriminate.
  - apply perm_swap.
Defined.

(* ------------------------------------------------------------------ *)
(** ** The callback of the walk *)

Lemma bind_ext {A B} (m : M A) (k k' : A -> M B) :
  (forall a, k a = k' a) -> bind m k = bind m k'.
Proof.
  intros H. destruct m as [tr [a|]]; simpl; auto. rewrite H. reflexivity.
Qed.

Lemma bind_assoc {A B C} (m : M A) (k : A -> M B) (h : B -> M C) :
  bind (bind m k) h = bind m (fun a => bind (k a) h).
Proof.
  destruct m as [tr [a|]]; simpl; auto.
  destruct (k a) as [tr1 [b|]]; simpl; auto.
  destruct (h b) as [tr2 o]. rewrite app_assoc. reflexivity.
Qed.

Lemma bind_returns {A B} (m : M A) (k : A -> M B) (a : A) :
  result m = Ret a ->
  bind m k = (trace m ++ trace (k a), result (k a)).
Proof.
  destruct m as [tr o]. unfold result, trace. simpl. intros ->.
  destruct (k a). reflexivity.
Qed.

Section Callback.

Variable os_Open : string -> error + bufio.Scanner.

Lemma scanLoop_no_send (toks : list (string * option error)) :
  forall res inComment, sends (trace (scanLoop toks res inComment)) = [].
Proof.
  induction toks as [|[line [err|]] rest IH]; intros res inComment;
    try reflexivity.
  cbn [scanLoop]. destruct (scanLine res inComment line). apply IH.
Qed.

Lemma scanLoop_filename (toks : list (string * option error)) :
  forall res inComment res',
    result (scanLoop toks res inComment) = Ret res' ->
    filename res' = filename res.
Proof.
  induction toks as [|[line [err|]] rest IH]; intros res inComment res' H.
  - inversion H. reflexivity.
  - discriminate.
  - cbn [scanLoop] in H.
    destruct (scanLine_one_counter res inComment line) as [E | [E | E]];
      destruct (scanLine res inComment line) as [res1 c1];
      simpl in E; subst res1; apply IH in H; exact H.
Qed.

Lemma getFileStats_no_send (name : string) :
  sends (trace (getFileStats os_Open name)) = [].
Proof.
  unfold getFileStats. destruct (os_Open name); [reflexivity|].
  apply scanLoop_no_send.
Qed.

Lemma getFileStats_filename (name : string) (res : fileLines) :
  result (getFileStats os_Open name) = Ret res -> filename res = name.
Proof.
  unfold getFileStats. destruct (os_Open name); [discriminate|].
  intros H. apply scanLoop_filename in H. exact H.
Qed.

(** An error handed to the callback is logged, at error level for a
    path ending in [.go] and as a debug trace otherwise, and the
    callback returns nil. *)
Lemma genFileProcessor_error (path : string)
      (info : option filepath.FileInfo) (e : error) :
  genFileProcessor os_Open path info (Some e) = ([skipLog path e], Ret None).
Proof.
  unfold genFileProcessor, skipLog.
  destruct (strings.HasSuffix path ".go"); reflexivity.
Qed.

Lemma genFileProcessor_ignores (path : string)
      (info : option filepath.FileInfo) (err : option error) :
  strings.HasSuffix path ".go" = false ->
  genFileProcessor os_Open path info err = ([EvLog DEBUG ["ignoring"; path]], Ret None).
Proof.
  intros H. unfold genFileProcessor. rewrite H. reflexivity.
Qed.

Lemma genFileProcessor_scans (path : string)
      (info : option filepath.FileInfo) :
  strings.HasSuffix path ".go" = true ->
  genFileProcessor os_Open path info None
  = (EvLog DEBUG ["fileProcessor"; path]
       :: trace (getFileStats os_Open path)
       ++ match result (getFileStats os_Open path) with
          | Ret res => [EvSend res]
          | Exit => []
          end,
     match result (getFileStats os_Open path) with
     | Ret _ => Ret None
     | Exit => Exit
     end).
Proof.
  intros H. unfold genFileProcessor. rewrite H. cbn [negb].
  unfold logf. rewrite bind_emit.
  destruct (getFileStats os_Open path) as [tr [res|]];
    unfold trace, result; simpl.
  - reflexivity.
  - rewrite app_nil_r. reflexivity.
Qed.

(** The callback never returns an error: it returns nil, or the process
    has exited in [getFileStats]. *)
Lemma genFileProcessor_result (path : string)
      (info : option filepath.FileInfo) (err : option error) :
  result (genFileProcessor os_Open path info err) = Ret None \/ result (genFileProcessor os_Open path info err) = Exit.
Proof.
  destruct (strings.HasSuffix path ".go") eqn:E.
  - destruct err as [e|].
    + rewrite genFileProcessor_error. auto.
    + rewrite genFileProcessor_scans by exact E.
      destruct (result (getFileStats os_Open path)); auto.
  - rewrite genFileProcessor_ignores by exact E. auto.
Qed.

Lemma genFileProcessor_sends (path : string)
      (info : option filepath.FileInfo) (err : option error) :
  sends (trace (genFileProcessor os_Open path info err)) = sent os_Open (path, err).
Proof.
  unfold sent. destruct err as [e|].
  - rewrite genFileProcessor_error. unfold skipLog.
    destruct (strings.HasSuffix path ".go"); reflexivity.
  - destruct (strings.HasSuffix path ".go") eqn:E.
    + rewrite genFileProcessor_scans by exact E.
      unfold trace at 1. cbn [fst sends].
      rewrite sends_app, getFileStats_no_send.
      destruct (result (getFileStats os_Open path)); reflexivity.
    + rewrite genFileProcessor_ignores by exact E. reflexivity.
Qed.

Lemma genFileProcessor_returns (path : string)
      (info : option filepath.FileInfo) (err : option error) :
  scans os_Open (path, err) -> result (genFileProcessor os_Open path info err) = Ret None.
Proof.
  intros H. destruct err as [e|].
  - rewrite genFileProcessor_error. reflexivity.
  - destruct (strings.HasSuffix path ".go") eqn:E.
    + rewrite genFileProcessor_scans by exact E.
      destruct (H E) as [res ->]. reflexivity.
    + rewrite genFileProcessor_ignores by exact E. reflexivity.
Qed.

End Callback.

(* ------------------------------------------------------------------ *)
(** ** The walk *)

Lemma walk_Dir (fn : filepath.WalkFunc) (path : string)
      (entries : list (string * filepath.tree)) :
  filepath.walk fn path (filepath.Dir entries)
  = bind (fn path (Some {| filepath.IsDir := true |}) None)
         (fun err1 =>
            match err1 with
            | Some _ => ret err1
            | None => filepath.walkEntries fn entries
            end).
Proof.
  cbn [filepath.walk]. apply bind_ext. intros [e|]; [reflexivity|].
  induction entries as [|[p t] rest IH]; [reflexivity|].
  cbn [filepath.walkEntries]. apply bind_ext. intros err.
  destruct (filepath.stops t err); [reflexivity | exact IH].
Qed.

Lemma visits_Dir (path : string) (entries : list (string * filepath.tree)) :
  filepath.visits path (filepath.Dir entries)
  = (path, None)
    :: flat_map (fun pt => filepath.visits (fst pt) (snd pt)) entries.
Proof.
  cbn [filepath.visits]. f_equal.
  induction entries as [|[p t] rest IH]; [reflexivity|].
  cbn [flat_map fst snd]. rewrite IH. reflexivity.
Qed.

Lemma stops_continue (t : filepath.tree) (err : option error) :
  filepath.stops t err = true -> exists e, err = Some e.
Proof.
  destruct err as [e|]; [eauto | discriminate].
Qed.

Lemma walkEntries_app (fn : filepath.WalkFunc)
      (l1 l2 : list (string * filepath.tree)) :
  filepath.walkEntries fn (l1 ++ l2)
  = bind (filepath.walkEntries fn l1)
         (fun r =>
            match r with
            | Some _ => ret r
            | None => filepath.walkEntries fn l2
            end).
Proof.
  induction l1 as [|[p t] l1 IH].
  - cbn [app filepath.walkEntries]. rewrite bind_ret_l. reflexivity.
  - cbn [app filepath.walkEntries]. rewrite bind_assoc.
    apply bind_ext. intros err.
    destruct (filepath.stops t err) eqn:E.
    + destruct (stops_continue _ _ E) as [e ->].
      rewrite bind_ret_l. reflexivity.
    + exact IH.
Qed.

Section Walk.

Variable os_Open : string -> error + bufio.Scanner.

(** With this callback a walk never returns an error. *)
Lemma walk_result (t : filepath.tree) :
  forall path,
    result (filepath.walk (genFileProcessor os_Open) path t) = Ret None
    \/ result (filepath.walk (genFileProcessor os_Open) path t) = Exit.
Proof.
  induction t as [|entries IH|err|err] using tree_entries_ind; intros path;
    try apply genFileProcessor_result.
  rewrite walk_Dir, result_bind.
  destruct (genFileProcessor_result os_Open path
              (Some {| filepath.IsDir := true |}) None) as [E | E];
    rewrite E; auto.
  clear E. induction entries as [|[p t] rest IHrest]; [left; reflexivity|].
  inversion IH as [|? ? Ht Hrest]; subst. cbn [snd] in Ht.
  cbn [filepath.walkEntries]. rewrite result_bind.
  destruct (Ht p) as [E | E]; rewrite E; [|right; reflexivity].
  cbn [filepath.stops]. apply IHrest. exact Hrest.
Qed.

Lemma Walk_result (os_Lstat : string -> filepath.tree) (root : string) :
  result (filepath.Walk os_Lstat root (genFileProcessor os_Open)) = Ret None
  \/ result (filepath.Walk os_Lstat root (genFileProcessor os_Open)) = Exit.
Proof.
  unfold filepath.Walk. rewrite result_bind.
  destruct (walk_result (os_Lstat root) root) as [E | E]; rewrite E; auto.
Qed.

(** When every scan it starts returns, a walk returns nil and has sent
    what its visits send, in their order. *)
Lemma walk_sends (t : filepath.tree) :
  forall path,
    Forall (scans os_Open) (filepath.visits path t) ->
    sends (trace (filepath.walk (genFileProcessor os_Open) path t))
    = flat_map (sent os_Open) (filepath.visits path t)
    /\ result (filepath.walk (genFileProcessor os_Open) path t) = Ret None.
Proof.
  induction t as [|entries IH|err|err] using tree_entries_ind; intros path Hall.
  - cbn [filepath.walk filepath.visits flat_map] in *.
    inversion Hall; subst. rewrite app_nil_r.
    split; [apply genFileProcessor_sends | apply genFileProcessor_returns; auto].
  - rewrite visits_Dir in Hall. inversion Hall as [|? ? Hdir Hrest]; subst.
    rewrite walk_Dir, visits_Dir.
    rewrite (bind_returns _ _ None)
      by (apply genFileProcessor_returns; exact Hdir).
    unfold trace at 1, result at 1. cbn [fst snd flat_map].
    rewrite sends_app. rewrite genFileProcessor_sends.
    assert (Hloop :
              sends (trace (filepath.walkEntries (genFileProcessor os_Open) entries))
              = flat_map (sent os_Open)
                  (flat_map (fun pt => filepath.visits (fst pt) (snd pt))
                            entries)
              /\ result (filepath.walkEntries (genFileProcessor os_Open) entries) = Ret None).
    { clear Hdir Hall. induction entries as [|[p t] rest IHrest].
      - split; reflexivity.
      - inversion IH as [|? ? Ht Hrest']; subst. cbn [snd] in Ht.
        cbn [flat_map fst snd] in Hrest.
        apply Forall_app in Hrest. destruct Hrest as [Hp Hq].
        destruct (Ht p Hp) as [Hs Hr].
        destruct (IHrest Hrest' Hq) as [Hs' Hr'].
        cbn [filepath.walkEntries flat_map fst snd].
        rewrite (bind_returns _ _ None) by exact Hr.
        cbn [filepath.stops]. unfold trace at 1, result at 1. cbn [fst snd].
        rewrite sends_app, flat_map_app, Hs, Hs'. split; [reflexivity | exact Hr']. }
    destruct Hloop as [Hs Hr]. rewrite Hs. split; [reflexivity | exact Hr].
  - cbn [filepath.walk filepath.visits flat_map]. rewrite app_nil_r.
    split; [apply genFileProcessor_sends|].
    rewrite genFileProcessor_error. reflexivity.
  - cbn [filepath.walk filepath.visits flat_map]. rewrite app_nil_r.
    split; [apply genFileProcessor_sends|].
    rewrite genFileProcessor_error. reflexivity.
Qed.

(** The files named by what the visits send are the visited paths that
    came without error and end in [.go]. *)
Lemma sent_filenames (vs : list (string * option error)) :
  Forall (scans os_Open) vs ->
  map filename (flat_map (sent os_Open) vs)
  = filter (fun path => strings.HasSuffix path ".go")
      (map fst (filter (fun v => match snd v with
                                 | None => true
                                 | Some _ => false
                                 end) vs)).
Proof.
  induction vs as [|[p [e|]] vs IH]; intros Hall;
    inversion Hall as [|? ? Hv Hvs]; subst; [reflexivity | | ].
  - cbn [flat_map sent app filter snd]. apply IH. exact Hvs.
  - cbn [flat_map filter snd map fst]. rewrite map_app, IH by exact Hvs.
    unfold sent. destruct (strings.HasSuffix p ".go") eqn:E.
    + destruct (Hv E) as [res Hres]. rewrite Hres. cbn [map app].
      rewrite (getFileStats_filename _ _ _ Hres). reflexivity.
    + reflexivity.
Qed.

End Walk.

(** C8: every path a walk meets is scanned and its record sent if and
    only if it ends with the suffix [.go]; any other path is skipped
    with a debug trace only, which is no error and logs none.  The first
    three parts are about a whole walk whose scans all return, the last
    two about one call of the callback. *)
Theorem only_go_files_are_scanned
        (os_Open : string -> error + bufio.Scanner)
        (root : string) (t : filepath.tree) :
  Forall (scans os_Open) (filepath.visits root t) ->
  sends (trace (filepath.walk (genFileProcessor os_Open) root t))
  = flat_map (sent os_Open) (filepath.visits root t)
  /\ map filename
       (sends (trace (filepath.walk (genFileProcessor os_Open) root t)))
     = filter (fun path => strings.HasSuffix path ".go")
         (map fst (filter (fun v => match snd v with
                                    | None => true
                                    | Some _ => false
                                    end) (filepath.visits root t)))
  /\ result (filepath.walk (genFileProcessor os_Open) root t) = Ret None
  /\ (forall path info err,
         strings.HasSuffix path ".go" = false ->
         genFileProcessor os_Open path info err
         = ([EvLog DEBUG ["ignoring"; path]], Ret None))
  /\ (forall path info,
         strings.HasSuffix path ".go" = true ->
         genFileProcessor os_Open path info None
         = (EvLog DEBUG ["fileProcessor"; path]
              :: trace (getFileStats os_Open path)
              ++ match result (getFileStats os_Open path) with
                 | Ret res => [EvSend res]
                 | Exit => []
                 end,
            match result (getFileStats os_Open path) with
            | Ret _ => Ret None
            | Exit => Exit
            end)).
Proof.
  intros Hall.
  destruct (walk_sends os_Open t root Hall) as [Hs Hr].
  split; [exact Hs|]. split.
  { rewrite Hs. apply sent_filenames. exact Hall. }
  split; [exact Hr|]. split.
  - intros path info err H. apply genFileProcessor_ignores. exact H.
  - intros path info H. apply genFileProcessor_scans. exact H.
Qed.

Lemma only_go_files_are_scanned_witness :
  Forall (scans demoOpen) (filepath.visits "proj" (demoLstat "proj"))
  /\ sends (trace (filepath.walk (genFileProcessor demoOpen) "proj"
                     (demoLstat "proj")))
     = [ mkFileLines "proj/a.go" 3 0 1; mkFileLines "proj/b.go" 0 2 0 ].
Proof.
  assert (H : Forall (scans demoOpen)
                (filepath.visits "proj" (demoLstat "proj"))).
  { repeat constructor; intros E; try discriminate E; eexists; reflexivity. }
  split; [exact H|].
  exact (proj1 (only_go_files_are_scanned demoOpen "proj"
                  (demoLstat "proj") H)).
Defined.

(** Two computations that send the same records and end the same way. *)
Lemma bind_same_sends {A B} (m : M A) (k k' : A -> M B) :
  (forall a, sends (trace (k a)) = sends (trace (k' a))
             /\ result (k a) = result (k' a)) ->
  sends (trace (bind m k)) = sends (trace (bind m k'))
  /\ result (bind m k) = result (bind m k').
Proof.
  intros H. rewrite !trace_bind, !result_bind.
  destruct (result m) as [a|]; [|split; reflexivity].
  destruct (H a) as [Hs Hr]. rewrite !sends_app, Hs, Hr. split; reflexivity.
Qed.

(** C9: an error met at an entry inside a directory (the entry cannot be
    stat'd, or is a directory that cannot be read) is not fatal: the
    callback logs it and returns nil, the walk goes on with the entries
    after it, and the walk sends the same records and ends the same way
    as if the entry were not there, so no row stands for the entry. *)
Theorem traversal_errors_are_skipped
        (os_Open : string -> error + bufio.Scanner)
        (dir : string) (pre post : list (string * filepath.tree))
        (path : string) (bad : filepath.tree) (e : error) :
  filepath.failed bad = Some e ->
  filepath.walk (genFileProcessor os_Open) path bad
  = ([skipLog path e], Ret None)
  /\ sends (trace (filepath.walk (genFileProcessor os_Open) dir
                     (filepath.Dir (pre ++ (path, bad) :: post))))
     = sends (trace (filepath.walk (genFileProcessor os_Open) dir
                       (filepath.Dir (pre ++ post))))
  /\ result (filepath.walk (genFileProcessor os_Open) dir
               (filepath.Dir (pre ++ (path, bad) :: post)))
     = result (filepath.walk (genFileProcessor os_Open) dir
                 (filepath.Dir (pre ++ post))).
Proof.
  intros Hbad.
  assert (Hvisit : filepath.walk (genFileProcessor os_Open) path bad
                   = ([skipLog path e], Ret None)).
  { destruct bad as [|entries|err|err]; try discriminate Hbad;
      inversion Hbad; subst; cbn [filepath.walk];
      apply genFileProcessor_error. }
  split; [exact Hvisit|].
  rewrite !walk_Dir. apply bind_same_sends. intros [err1|].
  { split; reflexivity. }
  rewrite !walkEntries_app. apply bind_same_sends. intros [err|].
  { split; reflexivity. }
  cbn [filepath.walkEntries]. rewrite Hvisit.
  rewrite (bind_returns _ _ None) by reflexivity.
  unfold trace at 1, result at 1. cbn [fst snd filepath.stops app].
  unfold skipLog. destruct (strings.HasSuffix path ".go"); split; reflexivity.
Qed.

Lemma traversal_errors_are_skipped_witness :
  filepath.failed
    (filepath.DirUnreadable "open work/locked: permission denied")
  = Some "open work/locked: permission denied"
  /\ demoLstat "work"
     = filepath.Dir
         ([("work/c.go", filepath.File)]
            ++ ("work/locked",
                filepath.DirUnreadable "open work/locked: permission denied")
            :: [])
  /\ sends (trace (filepath.walk (genFileProcessor demoOpen) "work"
                     (demoLstat "work")))
     = [ mkFileLines "work/c.go" 1 3 0 ]
  /\ result (filepath.walk (genFileProcessor demoOpen) "work"
               (demoLstat "work")) = Ret None.
Proof.
  split; [reflexivity|]. split; [reflexivity|].
  destruct (traversal_errors_are_skipped demoOpen "work"
              [("work/c.go", filepath.File)] [] "work/locked"
              (filepath.DirUnreadable "open work/locked: permission denied")
              "open work/locked: permission denied" eq_refl)
    as (_ & Hs & Hr).
  split.
  - etransitivity; [exact Hs | reflexivity].
  - etransitivity; [exact Hr | reflexivity].
Defined.

(** The scenario of the unreadable subdirectory, as a run: the record of
    [work/c.go] is the only row and the run completes. *)
Example unreadable_subdirectory_run :
  report (sloc demoOpen demoLstat "INFO" ["work"])
  = Some {| header := ["FILENAME"; "White Space"; "Comment"; "Code"];
            footer := ["TOTAL"; "0"; "3"; "1"];
            border := false;
            rows := [["work/c.go"; "0"; "3"; "1"]] |}.
Proof. reflexivity. Qed.

(** The scenario of [a.go], [b.go] and [readme.txt]. *)
Example two_go_files_run :
  report (sloc demoOpen demoLstat "INFO" ["proj"])
  = Some {| header := ["FILENAME"; "White Space"; "Comment"; "Code"];
            footer := ["TOTAL"; "1"; "2"; "3"];
            border := false;
            rows := [ ["proj/a.go"; "1"; "0"; "3"];
                      ["proj/b.go"; "0"; "2"; "0"] ] |}.
Proof. reflexivity. Qed.

(* ------------------------------------------------------------------ *)
(** ** The run *)

Section Run.

Variable os_Open : string -> error + bufio.Scanner.
Variable os_Lstat : string -> filepath.tree.

(** [main] after the flags: the start-up lines, then the loop. *)
Lemma main_walks (loggingFlag : string) (files : list string) (l : Level) :
  lookup loggingFlag loggingLevels = Some l ->
  main os_Open os_Lstat loggingFlag files
  = ([ EvPrint ("loggingLevel " ++ levelName l ++ newline)%string;
       EvLog NOTICE ["notice"]; EvLog WARNING ["warning"];
       EvLog ERROR ["err"]; EvLog CRITICAL ["crit"] ]
       ++ trace (walkFiles os_Open os_Lstat files),
     result (walkFiles os_Open os_Lstat files)).
Proof.
  intros H. unfold main. rewrite H. unfold logf.
  rewrite !bind_emit. unfold trace, result. reflexivity.
Qed.

(** The [log.Fatal(err)] after [filepath.Walk] is never reached: the
    loop over the roots aborts only where a scan does. *)
Lemma walkFiles_step (root : string) (rest : list string) :
  walkFiles os_Open os_Lstat (root :: rest)
  = bind (logf DEBUG ["processing"; root])
         (fun _ =>
            bind (filepath.Walk os_Lstat root (genFileProcessor os_Open))
                 (fun _ => walkFiles os_Open os_Lstat rest)).
Proof.
  cbn [walkFiles]. apply bind_ext. intros _.
  destruct (filepath.Walk os_Lstat root (genFileProcessor os_Open))
    as [tr o] eqn:E.
  pose proof (Walk_result os_Open os_Lstat root) as H.
  rewrite E in H. unfold result in H. cbn [snd] in H.
  destruct H as [-> | ->]; reflexivity.
Qed.

Lemma Walk_missing_root (root : string) (e : error) :
  os_Lstat root = filepath.NoStat e ->
  filepath.Walk os_Lstat root (genFileProcessor os_Open)
  = ([skipLog root e], Ret None).
Proof.
  intros H. unfold filepath.Walk. rewrite H. cbn [filepath.walk].
  rewrite genFileProcessor_error. reflexivity.
Qed.

End Run.

(** What happens to a root path that cannot be stat'd.
    [filepath.Walk] hands the error to the callback, which logs it (at
    error level when the path ends in [.go], as a debug trace otherwise)
    and returns nil; no record is sent for the root, the loop of [main]
    goes on with the next root, and the run prints the report it prints
    without that root. *)
Lemma missing_root_is_logged_and_skipped
        (os_Open : string -> error + bufio.Scanner)
        (os_Lstat : string -> filepath.tree) (root : string) (e : error) :
  os_Lstat root = filepath.NoStat e ->
  filepath.Walk os_Lstat root (genFileProcessor os_Open)
  = ([skipLog root e], Ret None)
  /\ (forall rest,
         walkFiles os_Open os_Lstat (root :: rest)
         = (EvLog DEBUG ["processing"; root] :: skipLog root e
              :: trace (walkFiles os_Open os_Lstat rest),
            result (walkFiles os_Open os_Lstat rest)))
  /\ (forall loggingFlag rest,
         report (sloc os_Open os_Lstat loggingFlag (root :: rest))
         = report (sloc os_Open os_Lstat loggingFlag rest)).
Proof.
  intros H.
  pose proof (Walk_missing_root os_Open os_Lstat root e H) as HW.
  assert (Hstep : forall rest,
             walkFiles os_Open os_Lstat (root :: rest)
             = (EvLog DEBUG ["processing"; root] :: skipLog root e
                  :: trace (walkFiles os_Open os_Lstat rest),
                result (walkFiles os_Open os_Lstat rest))).
  { intros rest. rewrite walkFiles_step, HW. unfold logf.
    rewrite bind_emit. rewrite (bind_returns _ _ None) by reflexivity.
    reflexivity. }
  split; [exact HW|]. split; [exact Hstep|].
  intros loggingFlag rest. unfold sloc.
  destruct (lookup loggingFlag loggingLevels) as [l|] eqn:El.
  - rewrite !(main_walks _ _ _ _ l El), Hstep.
    destruct (walkFiles os_Open os_Lstat rest) as [tr [u|]];
      unfold trace, result; cbn [fst snd]; [|reflexivity].
    cbn [app sends]. unfold skipLog.
    destruct (strings.HasSuffix root ".go"); reflexivity.
  - unfold main. rewrite El. reflexivity.
Qed.

Lemma missing_root_is_logged_and_skipped_witness :
  demoLstat "missing.go"
  = filepath.NoStat "lstat missing.go: no such file or directory"
  /\ filepath.Walk demoLstat "missing.go" (genFileProcessor demoOpen)
     = ([EvLog ERROR ["lstat missing.go: no such file or directory"]],
        Ret None).
Proof.
  split; [reflexivity|].
  exact (proj1 (missing_root_is_logged_and_skipped demoOpen demoLstat
                  "missing.go" "lstat missing.go: no such file or directory"
                  eq_refl)).
Defined.

(** C3, where the code departs from it: a root path that does not
    exist must abort the run with a fatal diagnostic and no report.
    [main] tests the error [filepath.Walk] returns and calls
    [log.Fatal], but [Walk] hands the error of the root to the callback
    and the callback returns nil on every path, so the test never
    fires: the missing root is passed over (with a debug line, or an
    error line when it ends in [.go]), the roots after it are walked,
    and the table is printed. *)
Theorem missing_root_run_completes :
  demoLstat "missing"
  = filepath.NoStat "lstat missing: no such file or directory"
  /\ main demoOpen demoLstat "INFO" ["missing"]
     = ([ EvPrint ("loggingLevel INFO" ++ newline)%string;
          EvLog NOTICE ["notice"]; EvLog WARNING ["warning"];
          EvLog ERROR ["err"]; EvLog CRITICAL ["crit"];
          EvLog DEBUG ["processing"; "missing"];
          EvLog DEBUG ["ignoring"; "missing"] ],
        Ret tt)
  /\ report (sloc demoOpen demoLstat "INFO" ["missing"])
     = Some {| header := ["FILENAME"; "White Space"; "Comment"; "Code"];
               footer := ["TOTAL"; "0"; "0"; "0"];
               border := false;
               rows := [] |}
  /\ ~ (exists tr, sloc demoOpen demoLstat "INFO" ["missing"] = Aborted tr)
  /\ demoLstat "missing.go"
     = filepath.NoStat "lstat missing.go: no such file or directory"
  /\ filepath.Walk demoLstat "missing.go" (genFileProcessor demoOpen)
     = ([EvLog ERROR ["lstat missing.go: no such file or directory"]],
        Ret None)
  /\ result (main demoOpen demoLstat "INFO" ["proj"; "missing.go"; "work"])
     = Ret tt
  /\ report (sloc demoOpen demoLstat "INFO" ["proj"; "missing.go"; "work"])
     = Some {| header := ["FILENAME"; "White Space"; "Comment"; "Code"];
               footer := ["TOTAL"; "1"; "5"; "4"];
               border := false;
               rows := [ ["proj/a.go"; "1"; "0"; "3"];
                         ["proj/b.go"; "0"; "2"; "0"];
                         ["work/c.go"; "0"; "3"; "1"] ] |}.
Proof.
  split; [reflexivity|]. split; [reflexivity|]. split; [reflexivity|].
  split; [intros [tr H]; discriminate H|].
  repeat split; reflexivity.
Qed.

(* ------------------------------------------------------------------ *)
(** ** More on the results goroutine *)

Lemma add_swap (x a b : Z) :
  GoInt.add (GoInt.add x a) b = GoInt.add (GoInt.add x b) a.
Proof.
  unfold GoInt.add at 2 4. rewrite !add_wrap_l. f_equal. lia.
Qed.

Lemma join_swap (t a b : fileLines) :
  join (join t a) b = join (join t b) a.
Proof.
  unfold join. cbn [filename codeLines commentLines whitespaceLines].
  f_equal; apply add_swap.
Qed.

Lemma fold_join_perm (rs rs' : list fileLines) :
  Permutation rs rs' ->
  forall total, fold_left join rs total = fold_left join rs' total.
Proof.
  induction 1 as [|r rs rs' _ IH|a b rs|rs1 rs2 rs3 _ IH1 _ IH2];
    intros total; cbn [fold_left].
  - reflexivity.
  - apply IH.
  - rewrite join_swap. reflexivity.
  - rewrite IH1. apply IH2.
Qed.

(** The total after the loop, for any records: the sums as [int] holds
    them. *)
Lemma total_wraps (rs : list fileLines) :
  fold_left join rs (mkFileLines "TOTAL" 0 0 0)
  = mkFileLines "TOTAL"
      (GoInt.wrap (sumOf codeLines rs))
      (GoInt.wrap (sumOf commentLines rs))
      (GoInt.wrap (sumOf whitespaceLines rs)).
Proof.
  assert (H0 : GoInt.in_range 0)
    by (unfold GoInt.in_range, GoInt.minInt, GoInt.maxInt; lia).
  pose proof (fold_join_filename rs (mkFileLines "TOTAL" 0 0 0)) as Hn.
  pose proof (fold_join_counter codeLines (fun _ _ => eq_refl) rs
                (mkFileLines "TOTAL" 0 0 0) H0) as H1.
  pose proof (fold_join_counter commentLines (fun _ _ => eq_refl) rs
                (mkFileLines "TOTAL" 0 0 0) H0) as H2.
  pose proof (fold_join_counter whitespaceLines (fun _ _ => eq_refl) rs
                (mkFileLines "TOTAL" 0 0 0) H0) as H3.
  cbn [filename codeLines commentLines whitespaceLines Z.add] in Hn, H1, H2, H3.
  destruct (fold_left join rs (mkFileLines "TOTAL" 0 0 0)).
  cbn in Hn, H1, H2, H3. subst. reflexivity.
Qed.

Lemma processResults_eq (rs : list fileLines) :
  processResults rs
  = (map (fun r => EvLog INFO [showFileLines r]) rs
       ++ [ EvPrint newline;
            EvRender
              {| header := ["FILENAME"; "White Space"; "Comment"; "Code"];
                 footer := [ "TOTAL";
                             Itoa (GoInt.wrap (sumOf whitespaceLines rs));
                             Itoa (GoInt.wrap (sumOf commentLines rs));
                             Itoa (GoInt.wrap (sumOf codeLines rs)) ];
                 border := false;
                 rows := map row rs |} ],
     Ret tt).
Proof.
  unfold processResults. rewrite rangeResults_eq, total_wraps.
  reflexivity.
Qed.

(** X1: the order in which records are joined into the total plays no
    part, overflow or not: any two arrival orders of the same records
    leave the same total and print the same total row. *)
Theorem total_independent_of_arrival_order
        (rs arrival : list fileLines) (total : fileLines) :
  Permutation rs arrival ->
  fold_left join rs total = fold_left join arrival total
  /\ option_map footer (rendered (trace (processResults rs)))
     = option_map footer (rendered (trace (processResults arrival))).
Proof.
  intros Hperm. split; [apply fold_join_perm; exact Hperm|].
  rewrite !processResults_eq. unfold trace. cbn [fst].
  rewrite !rendered_after_logs. cbn [rendered option_map footer].
  rewrite (sumOf_perm codeLines rs arrival Hperm),
          (sumOf_perm commentLines rs arrival Hperm),
          (sumOf_perm whitespaceLines rs arrival Hperm).
  reflexivity.
Qed.

Lemma total_independent_of_arrival_order_witness :
  fold_left join [ mkFileLines "a.go" GoInt.maxInt 0 1;
                   mkFileLines "b.go" 1 2 0 ]
            (mkFileLines "TOTAL" 0 0 0)
  = mkFileLines "TOTAL" GoInt.minInt 2 1
  /\ fold_left join [ mkFileLines "b.go" 1 2 0;
                      mkFileLines "a.go" GoInt.maxInt 0 1 ]
               (mkFileLines "TOTAL" 0 0 0)
     = mkFileLines "TOTAL" GoInt.minInt 2 1.
Proof.
  split; [reflexivity|].
  etransitivity; [|reflexivity].
  symmetry.
  exact (proj1 (total_independent_of_arrival_order
                  [ mkFileLines "a.go" GoInt.maxInt 0 1;
                    mkFileLines "b.go" 1 2 0 ]
                  [ mkFileLines "b.go" 1 2 0;
                    mkFileLines "a.go" GoInt.maxInt 0 1 ]
                  (mkFileLines "TOTAL" 0 0 0)
                  (perm_swap _ _ _))).
Defined.

(** X2: whatever records arrive, the total row holds each sum as a
    64-bit [int] holds it: the sum itself when it fits, and the sum
    wrapped around otherwise; the total row is always labelled TOTAL. *)
Theorem total_row_is_wrapped_sum (rs : list fileLines) :
  rendered (trace (processResults rs))
  = Some {| header := ["FILENAME"; "White Space"; "Comment"; "Code"];
            footer := [ "TOTAL";
                        Itoa (GoInt.wrap (sumOf whitespaceLines rs));
                        Itoa (GoInt.wrap (sumOf commentLines rs));
                        Itoa (GoInt.wrap (sumOf codeLines rs)) ];
            border := false;
            rows := map row rs |}
  /\ GoInt.in_range (GoInt.wrap (sumOf whitespaceLines rs))
  /\ GoInt.in_range (GoInt.wrap (sumOf commentLines rs))
  /\ GoInt.in_range (GoInt.wrap (sumOf codeLines rs)).
Proof.
  rewrite processResults_eq. unfold trace. cbn [fst].
  rewrite rendered_after_logs.
  repeat split; try reflexivity; apply wrap_range.
Qed.

(** X3: [processResults] never ends the process and sends nothing; it
    logs one line per record, in arrival order, then prints an empty
    line and renders one table, which is its last event.  With no
    record at all it still renders the table, with an all-zero total. *)
Theorem processResults_renders_once (rs : list fileLines) :
  exists t,
    trace (processResults rs)
    = map (fun r => EvLog INFO [showFileLines r]) rs
      ++ [EvPrint newline; EvRender t]
    /\ rows t = map row rs
    /\ result (processResults rs) = Ret tt
    /\ sends (trace (processResults rs)) = []
    /\ rendered (trace (processResults [])) 
       = Some {| header := ["FILENAME"; "White Space"; "Comment"; "Code"];
                 footer := ["TOTAL"; "0"; "0"; "0"];
                 border := false;
                 rows := [] |}.
Proof.
  rewrite processResults_eq. eexists. unfold trace, result. cbn [fst snd].
  split; [reflexivity|]. split; [reflexivity|]. split; [reflexivity|].
  split; [|reflexivity].
  rewrite sends_app. cbn [sends]. rewrite app_nil_r.
  induction rs as [|r rs IH]; [reflexivity | exact IH].
Qed.

(** [strconv.Itoa] prints different numbers differently. *)
Lemma Itoa_inj (a b : Z) : Itoa a = Itoa b -> a = b.
Proof.
  unfold Itoa. intros H. apply DecimalZ.to_int_inj.
  assert (Hnil : forall z, Z.to_int z <> Decimal.Pos Decimal.Nil
                           /\ Z.to_int z <> Decimal.Neg Decimal.Nil).
  { intros [|p|p]; cbn; split; try discriminate;
      intros E; injection E as E;
      exact (DecimalPos.Unsigned.to_uint_nonnil p E). }
  pose proof (NilZero.isi (Z.to_int a) (proj1 (Hnil a)) (proj2 (Hnil a))) as Ha.
  pose proof (NilZero.isi (Z.to_int b) (proj1 (Hnil b)) (proj2 (Hnil b))) as Hb.
  rewrite H in Ha. rewrite Ha in Hb. injection Hb as Hb. exact Hb.
Qed.

(** X4: the row printed for a record determines the record: two
    records that differ in the file name or in any counter give
    different rows. *)
Theorem row_determines_record (a b : fileLines) :
  row a = row b -> a = b.
Proof.
  destruct a as [fa ca ma wa], b as [fb cb mb wb]. unfold row.
  cbn [filename codeLines commentLines whitespaceLines].
  intros H. injection H as Hf Hw Hm Hc.
  apply Itoa_inj in Hw, Hm, Hc. subst. reflexivity.
Qed.

Lemma row_determines_record_witness :
  row (mkFileLines "proj/a.go" 3 0 1) = ["proj/a.go"; "1"; "0"; "3"]
  /\ mkFileLines "proj/a.go" (1 + 2) 0 1 = mkFileLines "proj/a.go" 3 0 1.
Proof.
  split; [reflexivity|].
  apply (row_determines_record (mkFileLines "proj/a.go" (1 + 2) 0 1)
           (mkFileLines "proj/a.go" 3 0 1)).
  reflexivity.
Defined.

(* ------------------------------------------------------------------ *)
(** ** More on one file *)

Lemma incrBy_succ_r (n : nat) (x : Z) :
  incrBy n (GoInt.incr x) = incrBy (S n) x.
Proof.
  unfold incrBy. symmetry. apply Nat.iter_succ_r.
Qed.

Lemma incrBy_small (n : nat) (x : Z) :
  0 <= x -> x + Z.of_nat n <= GoInt.maxInt ->
  incrBy n x = x + Z.of_nat n.
Proof.
  revert x. induction n as [|n IH]; intros x H0 Hle.
  - cbn. lia.
  - rewrite <- incrBy_succ_r. rewrite Nat2Z.inj_succ in Hle.
    rewrite incr_small by lia. rewrite IH by lia. lia.
Qed.

Lemma scanLoop_exit_iff (toks : list (string * option error)) :
  forall res inComment,
    result (scanLoop toks res inComment) = Exit
    <-> Exists (fun t => snd t <> None) toks.
Proof.
  induction toks as [|[line [err|]] rest IH]; intros res inComment.
  - split; [discriminate | intros H; inversion H].
  - split; [|reflexivity]. intros _. left. discriminate.
  - cbn [scanLoop]. destruct (scanLine res inComment line) as [res1 c1].
    rewrite IH. split.
    + intros H. right. exact H.
    + intros H. inversion H as [? ? Hhd|? ? Htl]; subst;
        [exfalso; apply Hhd; reflexivity | exact Htl].
Qed.

Lemma scanLoop_trace (toks : list (string * option error)) :
  forall res inComment,
    match result (scanLoop toks res inComment) with
    | Ret _ => trace (scanLoop toks res inComment) = []
    | Exit =>
        exists line err,
          In (line, Some err) toks
          /\ trace (scanLoop toks res inComment) = [EvLog CRITICAL [err]]
    end.
Proof.
  induction toks as [|[line [err|]] rest IH]; intros res inComment.
  - reflexivity.
  - cbn. exists line, err. split; [left; reflexivity | reflexivity].
  - cbn [scanLoop]. destruct (scanLine res inComment line) as [res1 c1].
    specialize (IH res1 c1).
    destruct (result (scanLoop rest res1 c1)); [exact IH|].
    destruct IH as (l & e & Hin & Htr). exists l, e.
    split; [right; exact Hin | exact Htr].
Qed.

(** X5: [getFileStats] ends the process exactly when the file cannot
    be opened or the scanner shows an error together with a line; it has
    then logged that one error, at critical level, and nothing else.
    When it returns it has logged nothing at all. *)
Theorem getFileStats_fatal_iff
        (os_Open : string -> error + bufio.Scanner) (name : string) :
  (result (getFileStats os_Open name) = Exit
   <-> (exists err, os_Open name = inl err)
       \/ (exists file, os_Open name = inr file
                        /\ Exists (fun t => snd t <> None) (bufio.tokens file)))
  /\ match result (getFileStats os_Open name) with
     | Ret _ => trace (getFileStats os_Open name) = []
     | Exit =>
         exists err,
           trace (getFileStats os_Open name) = [EvLog CRITICAL [err]]
           /\ (os_Open name = inl err
               \/ exists file line,
                    os_Open name = inr file
                    /\ In (line, Some err) (bufio.tokens file))
     end.
Proof.
  unfold getFileStats. destruct (os_Open name) as [err|file] eqn:E.
  - split.
    + split; [intros _; left; eauto | reflexivity].
    + cbn. exists err. split; [reflexivity | left; reflexivity].
  - split.
    + rewrite scanLoop_exit_iff. split.
      * intros H. right. exists file. split; [reflexivity | exact H].
      * intros [[err H] | (f & Hf & H)]; [discriminate H|].
        inversion Hf; subst. exact H.
    + pose proof (scanLoop_trace (bufio.tokens file)
                    {| filename := name; codeLines := 0;
                       commentLines := 0; whitespaceLines := 0 |} false) as H.
      destruct (result (scanLoop (bufio.tokens file) _ false)); [exact H|].
      destruct H as (line & err & Hin & Htr). exists err.
      split; [exact Htr|]. right. exists file, line.
      split; [reflexivity | exact Hin].
Qed.

Lemma addLines_none (res : fileLines) : addLines 0 0 0 res = res.
Proof. destruct res. reflexivity. Qed.

Lemma addLines_incWhitespace (c m w : nat) (res : fileLines) :
  addLines c m w (incWhitespace res) = addLines c m (S w) res.
Proof.
  unfold addLines, incWhitespace.
  cbn [filename codeLines commentLines whitespaceLines].
  rewrite incrBy_succ_r. reflexivity.
Qed.

Lemma addLines_incComment (c m w : nat) (res : fileLines) :
  addLines c m w (incComment res) = addLines c (S m) w res.
Proof.
  unfold addLines, incComment.
  cbn [filename codeLines commentLines whitespaceLines].
  rewrite incrBy_succ_r. reflexivity.
Qed.

Lemma addLines_incCode (c m w : nat) (res : fileLines) :
  addLines c m w (incCode res) = addLines (S c) m w res.
Proof.
  unfold addLines, incCode.
  cbn [filename codeLines commentLines whitespaceLines].
  rewrite incrBy_succ_r. reflexivity.
Qed.

Lemma addLines_addLines (c m w c' m' w' : nat) (res : fileLines) :
  addLines c m w (addLines c' m' w' res)
  = addLines (c + c') (m + m') (w + w') res.
Proof.
  unfold addLines, incrBy.
  cbn [filename codeLines commentLines whitespaceLines].
  rewrite !Nat.iter_add. reflexivity.
Qed.

Lemma blanks_cons (l : string) (lines : list string) :
  blanks (l :: lines) = if isBlank l then S (blanks lines) else blanks lines.
Proof.
  unfold blanks. cbn [filter]. destruct (isBlank l); reflexivity.
Qed.

Lemma nonBlanks_cons (l : string) (lines : list string) :
  nonBlanks (l :: lines)
  = if isBlank l then nonBlanks lines else S (nonBlanks lines).
Proof.
  unfold nonBlanks. cbn [filter]. destruct (isBlank l); reflexivity.
Qed.

Lemma scanLine_blank (res : fileLines) (inComment : bool) (line : string) :
  isBlank line = true ->
  scanLine res inComment line = (incWhitespace res, inComment).
Proof.
  unfold isBlank, scanLine. cbv zeta. intros ->. reflexivity.
Qed.

Lemma scanLine_code (res : fileLines) (line : string) :
  strings.TrimSpace line <> "" ->
  strings.HasPrefix (strings.TrimSpace line) "//" = false ->
  strings.HasPrefix (strings.TrimSpace line) "/*" = false ->
  scanLine res false line = (incCode res, false).
Proof.
  intros Hne H1 H2. unfold scanLine; cbv zeta.
  destruct (String.length (strings.TrimSpace line) =? 0)%nat eqn:E0.
  - apply length_zero_empty in E0. contradiction.
  - rewrite H1, H2. reflexivity.
Qed.

(** Lines read inside a block comment that none of them closes. *)
Lemma scanLoop_inside_comment (lines : list string) :
  forall rest res,
    Forall (fun l => strings.HasSuffix (strings.TrimSpace l) "*/" = false)
           lines ->
    scanLoop (delivered lines ++ rest) res true
    = scanLoop rest (addLines 0 (nonBlanks lines) (blanks lines) res) true.
Proof.
  induction lines as [|l lines IH]; intros rest res Hall.
  - cbn [delivered map app]. rewrite addLines_none. reflexivity.
  - inversion Hall as [|? ? Hl Hrest]; subst.
    cbn [delivered map app scanLoop]. fold (delivered lines).
    rewrite blanks_cons, nonBlanks_cons.
    destruct (isBlank l) eqn:Eb.
    + rewrite scanLine_blank by exact Eb.
      rewrite IH by exact Hrest. rewrite addLines_incWhitespace. reflexivity.
    + rewrite scanLine_in_comment.
      * rewrite Hl. cbn [negb]. rewrite orb_true_r.
        rewrite IH by exact Hrest. rewrite addLines_incComment. reflexivity.
      * intros E. unfold isBlank in Eb. rewrite E in Eb. discriminate Eb.
Qed.

(** Lines read outside a block comment, none of which starts with a
    comment marker. *)
Lemma scanLoop_no_marker (lines : list string) :
  forall rest res,
    Forall (fun l =>
              strings.HasPrefix (strings.TrimSpace l) "//" = false
              /\ strings.HasPrefix (strings.TrimSpace l) "/*" = false)
           lines ->
    scanLoop (delivered lines ++ rest) res false
    = scanLoop rest (addLines (nonBlanks lines) 0 (blanks lines) res) false.
Proof.
  induction lines as [|l lines IH]; intros rest res Hall.
  - cbn [delivered map app]. rewrite addLines_none. reflexivity.
  - inversion Hall as [|? ? [Hl1 Hl2] Hrest]; subst.
    cbn [delivered map app scanLoop]. fold (delivered lines).
    rewrite blanks_cons, nonBlanks_cons.
    destruct (isBlank l) eqn:Eb.
    + rewrite scanLine_blank by exact Eb.
      rewrite IH by exact Hrest. rewrite addLines_incWhitespace. reflexivity.
    + rewrite scanLine_code; try assumption.
      * rewrite IH by exact Hrest. rewrite addLines_incCode. reflexivity.
      * intros E. unfold isBlank in Eb. rewrite E in Eb. discriminate Eb.
Qed.

Lemma getFileStats_delivered
      (os_Open : string -> error + bufio.Scanner) (name : string)
      (file : bufio.Scanner) (lines : list string) :
  os_Open name = inr file ->
  bufio.tokens file = delivered lines ->
  getFileStats os_Open name
  = scanLoop (delivered lines ++ []) (mkFileLines name 0 0 0) false.
Proof.
  intros Ho Ht. unfold getFileStats. rewrite Ho, Ht, app_nil_r. reflexivity.
Qed.

Lemma all_blank_counts (lines : list string) :
  Forall (fun l => isBlank l = true) lines ->
  blanks lines = List.length lines /\ nonBlanks lines = 0%nat.
Proof.
  induction 1 as [|l lines Hl _ [IH1 IH2]]; [split; reflexivity|].
  rewrite blanks_cons, nonBlanks_cons, Hl, IH1, IH2. split; reflexivity.
Qed.

(** X6: a file whose lines are all blank once trimmed (an empty file
    included) has no code and no comment line: every line is counted as
    white space, and the scan returns without logging. *)
Theorem blank_file_has_no_code_or_comment
        (os_Open : string -> error + bufio.Scanner) (name : string)
        (file : bufio.Scanner) (lines : list string) :
  os_Open name = inr file ->
  bufio.tokens file = delivered lines ->
  Forall (fun l => isBlank l = true) lines ->
  getFileStats os_Open name
  = ([], Ret (mkFileLines name 0 0 (incrBy (List.length lines) 0)))
  /\ (Z.of_nat (List.length lines) <= GoInt.maxInt ->
      incrBy (List.length lines) 0 = Z.of_nat (List.length lines)).
Proof.
  intros Ho Ht Hall. split.
  - rewrite (getFileStats_delivered _ _ _ _ Ho Ht).
    rewrite scanLoop_no_marker.
    + destruct (all_blank_counts lines Hall) as [-> ->]. reflexivity.
    + eapply Forall_impl; [|exact Hall]. intros l Hl.
      unfold isBlank in Hl. apply length_zero_empty in Hl.
      rewrite Hl. split; reflexivity.
  - intros Hle. rewrite incrBy_small by lia. lia.
Qed.

Lemma blank_file_has_no_code_or_comment_witness :
  getFileStats (fun _ => inr (fileOf [""; "   "; String "009" ""])) "blank.go"
  = ([], Ret (mkFileLines "blank.go" 0 0 3)).
Proof.
  apply (blank_file_has_no_code_or_comment
           (fun _ => inr (fileOf [""; "   "; String "009" ""])) "blank.go"
           (fileOf [""; "   "; String "009" ""])
           [""; "   "; String "009" ""]).
  - reflexivity.
  - reflexivity.
  - repeat constructor.
Defined.

(** X7: a file in which no trimmed line starts with [//] or with the
    open marker has no comment line: its non-blank lines are all counted
    as code and its blank lines as white space, whatever else the lines
    hold (a close marker, or a comment after code). *)
Theorem file_without_comment_prefix
        (os_Open : string -> error + bufio.Scanner) (name : string)
        (file : bufio.Scanner) (lines : list string) :
  os_Open name = inr file ->
  bufio.tokens file = delivered lines ->
  Forall (fun l =>
            strings.HasPrefix (strings.TrimSpace l) "//" = false
            /\ strings.HasPrefix (strings.TrimSpace l) "/*" = false)
         lines ->
  getFileStats os_Open name
  = ([], Ret (mkFileLines name (incrBy (nonBlanks lines) 0) 0
                          (incrBy (blanks lines) 0))).
Proof.
  intros Ho Ht Hall.
  rewrite (getFileStats_delivered _ _ _ _ Ho Ht).
  rewrite scanLoop_no_marker by exact Hall. reflexivity.
Qed.

Lemma file_without_comment_prefix_witness :
  getFileStats
    (fun _ => inr (fileOf ["x := 1 // one"; ""; "y := 2 /* two */"; "*/"]))
    "f.go"
  = ([], Ret (mkFileLines "f.go" 3 0 1)).
Proof.
  apply (file_without_comment_prefix
           (fun _ => inr (fileOf ["x := 1 // one"; ""; "y := 2 /* two */"; "*/"]))
           "f.go"
           (fileOf ["x := 1 // one"; ""; "y := 2 /* two */"; "*/"])
           ["x := 1 // one"; ""; "y := 2 /* two */"; "*/"]).
  - reflexivity.
  - reflexivity.
  - repeat constructor.
Defined.

(** X8: once a line opens a block comment that no later line closes
    (no later trimmed line ends with the close marker), nothing after it
    is counted as code: the lines up to the end of the file are comment
    lines, or white space when blank.  The lines before the opening line
    are taken to start with no comment marker. *)
Theorem unclosed_block_comment_hides_code
        (os_Open : string -> error + bufio.Scanner) (name : string)
        (file : bufio.Scanner) (before : list string) (opening : string)
        (after : list string) :
  os_Open name = inr file ->
  bufio.tokens file = delivered (before ++ opening :: after) ->
  Forall (fun l =>
            strings.HasPrefix (strings.TrimSpace l) "//" = false
            /\ strings.HasPrefix (strings.TrimSpace l) "/*" = false)
         before ->
  strings.HasPrefix (strings.TrimSpace opening) "/*" = true ->
  Forall (fun l => strings.HasSuffix (strings.TrimSpace l) "*/" = false)
         (opening :: after) ->
  getFileStats os_Open name
  = ([], Ret (mkFileLines name
                (incrBy (nonBlanks before) 0)
                (incrBy (S (nonBlanks after)) 0)
                (incrBy (blanks after + blanks before) 0))).
Proof.
  intros Ho Ht Hbefore Hopen Hafter.
  inversion Hafter as [|? ? Hos Hrest]; subst.
  unfold getFileStats. rewrite Ho, Ht.
  unfold delivered. rewrite map_app. fold (delivered before).
  rewrite scanLoop_no_marker by exact Hbefore.
  cbn [map scanLoop]. fold (delivered after).
  unfold scanLine. cbv zeta.
  destruct (String.length (strings.TrimSpace opening) =? 0)%nat eqn:E0.
  { apply length_zero_empty in E0. rewrite E0 in Hopen. discriminate. }
  rewrite (block_open_not_line_comment _ Hopen), Hopen, Hos. cbn [negb].
  rewrite <- (app_nil_r (delivered after)).
  rewrite scanLoop_inside_comment by exact Hrest.
  rewrite addLines_incComment, addLines_addLines.
  cbn [scanLoop ret Nat.add]. unfold addLines.
  cbn [filename codeLines commentLines whitespaceLines].
  rewrite Nat.add_0_r. reflexivity.
Qed.

Lemma unclosed_block_comment_hides_code_witness :
  getFileStats
    (fun _ => inr (fileOf ["package p"; "/* TODO"; "func f() {}"; ""; "var x int"]))
    "u.go"
  = ([], Ret (mkFileLines "u.go" 1 3 1)).
Proof.
  apply (unclosed_block_comment_hides_code
           (fun _ => inr (fileOf ["package p"; "/* TODO"; "func f() {}"; "";
                                  "var x int"]))
           "u.go"
           (fileOf ["package p"; "/* TODO"; "func f() {}"; ""; "var x int"])
           ["package p"] "/* TODO" ["func f() {}"; ""; "var x int"]).
  - reflexivity.
  - reflexivity.
  - repeat constructor.
  - reflexivity.
  - repeat constructor.
Defined.

(** X9: a block comment of any length is counted line by line and then
    left: an opening line (starting with the open marker, not ending with
    the close marker), any lines that do not end with the close marker,
    and a closing line (ending with the close marker, starting with
    neither marker) count one comment line each, blank lines in between
    count as white space, no code line is counted, and the lines after
    the closing line are read outside the comment again. *)
Theorem block_comment_of_any_length
        (res : fileLines) (opening : string) (middle : list string)
        (closing : string) (rest : list (string * option error)) :
  strings.HasPrefix (strings.TrimSpace opening) "/*" = true ->
  strings.HasSuffix (strings.TrimSpace opening) "*/" = false ->
  Forall (fun l => strings.HasSuffix (strings.TrimSpace l) "*/" = false)
         middle ->
  strings.HasPrefix (strings.TrimSpace closing) "//" = false ->
  strings.HasPrefix (strings.TrimSpace closing) "/*" = false ->
  strings.HasSuffix (strings.TrimSpace closing) "*/" = true ->
  scanLoop (delivered (opening :: middle ++ [closing]) ++ rest) res false
  = scanLoop rest
             (addLines 0 (S (S (nonBlanks middle))) (blanks middle) res)
             false.
Proof.
  intros Hopen Hopen' Hmiddle Hc1 Hc2 Hc3.
  cbn [delivered map app scanLoop].
  unfold scanLine at 1. cbv zeta.
  destruct (String.length (strings.TrimSpace opening) =? 0)%nat eqn:E0.
  { apply length_zero_empty in E0. rewrite E0 in Hopen. discriminate. }
  rewrite (block_open_not_line_comment _ Hopen), Hopen, Hopen'. cbn [negb].
  rewrite map_app, <- app_assoc. fold (delivered middle).
  rewrite scanLoop_inside_comment by exact Hmiddle.
  cbn [map app scanLoop].
  rewrite scanLine_in_comment.
  - rewrite Hc1, Hc2, Hc3. cbn [negb orb].
    rewrite addLines_incComment.
    replace (incComment (addLines 0 (S (nonBlanks middle)) (blanks middle) res))
      with (addLines 0 (S (S (nonBlanks middle))) (blanks middle) res);
      [reflexivity|].
    unfold addLines, incComment, incrBy.
    cbn [filename codeLines commentLines whitespaceLines Nat.iter].
    reflexivity.
  - intros E. rewrite E in Hc3. discriminate Hc3.
Qed.

Lemma block_comment_of_any_length_witness :
  scanLoop (delivered ("/* start" :: ["middle"; ""; "// more"] ++ ["end */"])
              ++ [("var x = 1", None)])
           (mkFileLines "f.go" 0 0 0) false
  = ([], Ret (mkFileLines "f.go" 1 4 1)).
Proof.
  etransitivity.
  - apply (block_comment_of_any_length (mkFileLines "f.go" 0 0 0)
             "/* start" ["middle"; ""; "// more"] "end */"
             [("var x = 1", None)]);
      try reflexivity.
    repeat constructor.
  - reflexivity.
Defined.

(* ------------------------------------------------------------------ *)
(** ** More on the walk *)

Lemma bind_discard {B} (m : M (option error)) (k : option error -> M B) :
  result m = Ret None \/ result m = Exit ->
  bind m k = bind m (fun _ => k None).
Proof.
  destruct m as [tr [[e|]|]]; unfold result; cbn [snd];
    intros [H | H]; try discriminate H; reflexivity.
Qed.

Lemma bind_ret_r (m : M (option error)) :
  result m = Ret None \/ result m = Exit ->
  bind m (fun _ => ret None) = m.
Proof.
  destruct m as [tr [[e|]|]]; unfold result; cbn [snd];
    intros [H | H]; try discriminate H; cbn; rewrite ?app_nil_r; reflexivity.
Qed.

Section Visits.

Variable os_Open : string -> error + bufio.Scanner.

Lemma visitAll_result (vs : list (string * option error)) :
  result (visitAll os_Open vs) = Ret None
  \/ result (visitAll os_Open vs) = Exit.
Proof.
  induction vs as [|[p e] vs IH]; [left; reflexivity|].
  cbn [visitAll]. rewrite result_bind.
  destruct (result (genFileProcessor os_Open p None e)); auto.
Qed.

Lemma visitAll_app (vs1 vs2 : list (string * option error)) :
  visitAll os_Open (vs1 ++ vs2)
  = bind (visitAll os_Open vs1) (fun _ => visitAll os_Open vs2).
Proof.
  induction vs1 as [|[p e] vs1 IH].
  - cbn [app visitAll]. rewrite bind_ret_l. reflexivity.
  - cbn [app visitAll]. rewrite bind_assoc. apply bind_ext.
    intros _. exact IH.
Qed.

Lemma walk_visitAll (t : filepath.tree) :
  forall path,
    filepath.walk (genFileProcessor os_Open) path t
    = visitAll os_Open (filepath.visits path t).
Proof.
  induction t as [|entries IH|err|err] using tree_entries_ind; intros path;
    try (cbn [filepath.walk filepath.visits visitAll];
         symmetry; apply bind_ret_r; apply genFileProcessor_result).
  rewrite walk_Dir, visits_Dir. cbn [visitAll].
  rewrite bind_discard by apply genFileProcessor_result.
  apply bind_ext. intros _.
  induction entries as [|[p t] rest IHrest]; [reflexivity|].
  inversion IH as [|? ? Ht Hrest]; subst. cbn [snd] in Ht.
  cbn [filepath.walkEntries flat_map fst snd].
  rewrite visitAll_app, Ht.
  rewrite bind_discard by apply visitAll_result.
  apply bind_ext. intros _. cbn [filepath.stops]. apply IHrest. exact Hrest.
Qed.

Lemma Walk_visitAll (os_Lstat : string -> filepath.tree) (root : string) :
  filepath.Walk os_Lstat root (genFileProcessor os_Open)
  = visitAll os_Open (filepath.visits root (os_Lstat root)).
Proof.
  unfold filepath.Walk. rewrite walk_visitAll.
  rewrite bind_discard by apply visitAll_result.
  apply bind_ret_r. apply visitAll_result.
Qed.

Lemma visitAll_returns (vs : list (string * option error)) :
  Forall (scans os_Open) vs ->
  sends (trace (visitAll os_Open vs)) = flat_map (sent os_Open) vs
  /\ result (visitAll os_Open vs) = Ret None.
Proof.
  induction 1 as [|[p e] vs Hv _ [IHs IHr]]; [split; reflexivity|].
  cbn [visitAll flat_map].
  rewrite (bind_returns _ _ None) by (apply genFileProcessor_returns; exact Hv).
  unfold trace at 1, result at 1. cbn [fst snd].
  rewrite sends_app, genFileProcessor_sends, IHs. split; [reflexivity | exact IHr].
Qed.

Lemma fails_exits (p : string) (e : option error) :
  fails os_Open (p, e) <->
  result (genFileProcessor os_Open p None e) = Exit.
Proof.
  destruct e as [e|]; cbn [fails].
  - rewrite genFileProcessor_error. split; [contradiction | discriminate].
  - destruct (strings.HasSuffix p ".go") eqn:E.
    + rewrite genFileProcessor_scans by exact E. unfold result at 2. cbn [snd].
      destruct (result (getFileStats os_Open p)); split;
        try discriminate; try reflexivity.
      * intros [_ H]. discriminate H.
      * intros _. split; reflexivity.
    + rewrite genFileProcessor_ignores by exact E.
      split; [intros [H _]; discriminate H | discriminate].
Qed.

Lemma visitAll_exit_iff (vs : list (string * option error)) :
  result (visitAll os_Open vs) = Exit <-> Exists (fails os_Open) vs.
Proof.
  induction vs as [|[p e] vs IH].
  - split; [discriminate | intros H; inversion H].
  - cbn [visitAll]. rewrite result_bind. split.
    + destruct (result (genFileProcessor os_Open p None e)) eqn:E.
      * intros H. right. apply IH. exact H.
      * intros _. left. apply fails_exits. exact E.
    + intros H. inversion H as [? ? Hhd|? ? Htl]; subst.
      * apply fails_exits in Hhd. rewrite Hhd. reflexivity.
      * destruct (result (genFileProcessor os_Open p None e));
          [apply IH; exact Htl | reflexivity].
Qed.

Lemma visitAll_sends_from (vs : list (string * option error)) :
  forall r,
    In r (sends (trace (visitAll os_Open vs))) ->
    exists p,
      In (p, None) vs
      /\ strings.HasSuffix p ".go" = true
      /\ result (getFileStats os_Open p) = Ret r
      /\ filename r = p.
Proof.
  induction vs as [|[p e] vs IH]; intros r Hin; [contradiction|].
  cbn [visitAll] in Hin. rewrite trace_bind in Hin.
  assert (Hhere : In r (sent os_Open (p, e)) ->
                  exists p', In (p', None) ((p, e) :: vs)
                             /\ strings.HasSuffix p' ".go" = true
                             /\ result (getFileStats os_Open p') = Ret r
                             /\ filename r = p').
  { unfold sent. destruct e as [e|]; [contradiction|].
    destruct (strings.HasSuffix p ".go") eqn:E; [|contradiction].
    destruct (result (getFileStats os_Open p)) as [res|] eqn:Er;
      [|contradiction].
    intros [-> | []]. exists p. split; [left; reflexivity|].
    split; [exact E|]. split; [exact Er|].
    apply (getFileStats_filename os_Open). exact Er. }
  destruct (result (genFileProcessor os_Open p None e)).
  - rewrite sends_app, genFileProcessor_sends in Hin.
    apply in_app_or in Hin. destruct Hin as [Hin | Hin]; [auto|].
    destruct (IH r Hin) as (p' & Hp' & Hrest). exists p'.
    split; [right; exact Hp' | exact Hrest].
  - rewrite genFileProcessor_sends in Hin. auto.
Qed.

Lemma visitAll_aborts_at (before after : list (string * option error))
      (v : string * option error) :
  Forall (scans os_Open) before ->
  fails os_Open v ->
  sends (trace (visitAll os_Open (before ++ v :: after)))
  = flat_map (sent os_Open) before
  /\ result (visitAll os_Open (before ++ v :: after)) = Exit.
Proof.
  intros Hbefore Hv. destruct (visitAll_returns before Hbefore) as [Hs Hr].
  rewrite visitAll_app. rewrite (bind_returns _ _ None) by exact Hr.
  unfold trace at 1, result at 1. cbn [fst snd].
  destruct v as [p e]. cbn [visitAll].
  rewrite sends_app, Hs, trace_bind, result_bind.
  pose proof (proj1 (fails_exits p e) Hv) as He. rewrite He.
  rewrite genFileProcessor_sends.
  destruct e as [e|]; [contradiction|]. destruct Hv as [Hsuf Hex].
  unfold sent. rewrite Hsuf, Hex, app_nil_r. split; reflexivity.
Qed.

End Visits.

(** X10: with this callback a walk is no more than the callback called
    on every entry of the tree in turn (the root first, each directory
    before its entries, entries in the order of the listing) until the
    process exits: nothing the callback returns ever skips a directory
    or stops the walk, and [Walk] adds nothing to it. *)
Theorem walk_visits_every_entry_in_order
        (os_Open : string -> error + bufio.Scanner)
        (os_Lstat : string -> filepath.tree) (root : string)
        (t : filepath.tree) :
  filepath.walk (genFileProcessor os_Open) root t
  = visitAll os_Open (filepath.visits root t)
  /\ filepath.Walk os_Lstat root (genFileProcessor os_Open)
     = visitAll os_Open (filepath.visits root (os_Lstat root)).
Proof.
  split; [apply walk_visitAll | apply Walk_visitAll].
Qed.

(** X11: [filepath.Walk] with this callback never returns an error, so
    the [log.Fatal(err)] that follows it in [main] is never reached: the
    loop over the roots logs the root, walks it and goes on to the next
    root, and ends the process only where a walk does. *)
Theorem Walk_never_returns_error
        (os_Open : string -> error + bufio.Scanner)
        (os_Lstat : string -> filepath.tree) (root : string)
        (rest : list string) :
  (forall e, result (filepath.Walk os_Lstat root (genFileProcessor os_Open))
             <> Ret (Some e))
  /\ walkFiles os_Open os_Lstat (root :: rest)
     = bind (logf DEBUG ["processing"; root])
            (fun _ =>
               bind (filepath.Walk os_Lstat root (genFileProcessor os_Open))
                    (fun _ => walkFiles os_Open os_Lstat rest)).
Proof.
  split.
  - intros e H. rewrite Walk_visitAll in H.
    destruct (visitAll_result os_Open (filepath.visits root (os_Lstat root)))
      as [E | E]; rewrite E in H; discriminate H.
  - cbn [walkFiles]. apply bind_ext. intros _.
    rewrite Walk_visitAll.
    destruct (visitAll os_Open (filepath.visits root (os_Lstat root)))
      as [tr o] eqn:E.
    pose proof (visitAll_result os_Open
                  (filepath.visits root (os_Lstat root))) as H.
    rewrite E in H. unfold result in H. cbn [snd] in H.
    destruct H as [-> | ->]; reflexivity.
Qed.

(** X12: whatever happens during a walk, every record sent on the
    channel is the record [getFileStats] returned for a path the walk
    met without error and that ends in [.go], and it carries that path
    as its file name: nothing is sent for another path, for an entry
    that came with an error, or for a scan that did not return. *)
Theorem only_scanned_go_paths_are_sent
        (os_Open : string -> error + bufio.Scanner)
        (root : string) (t : filepath.tree) (r : fileLines) :
  In r (sends (trace (filepath.walk (genFileProcessor os_Open) root t))) ->
  exists path,
    In (path, None) (filepath.visits root t)
    /\ strings.HasSuffix path ".go" = true
    /\ result (getFileStats os_Open path) = Ret r
    /\ filename r = path.
Proof.
  rewrite walk_visitAll. apply visitAll_sends_from.
Qed.

Lemma only_scanned_go_paths_are_sent_witness :
  In (mkFileLines "proj/b.go" 0 2 0)
     (sends (trace (filepath.walk (genFileProcessor demoOpen) "proj"
                      (demoLstat "proj"))))
  /\ exists path,
       In (path, None) (filepath.visits "proj" (demoLstat "proj"))
       /\ strings.HasSuffix path ".go" = true
       /\ result (getFileStats demoOpen path)
          = Ret (mkFileLines "proj/b.go" 0 2 0)
       /\ filename (mkFileLines "proj/b.go" 0 2 0) = path.
Proof.
  assert (H : In (mkFileLines "proj/b.go" 0 2 0)
                 (sends (trace (filepath.walk (genFileProcessor demoOpen)
                                  "proj" (demoLstat "proj"))))).
  { right. left. reflexivity. }
  split; [exact H|].
  exact (only_scanned_go_paths_are_sent demoOpen "proj" (demoLstat "proj")
           (mkFileLines "proj/b.go" 0 2 0) H).
Defined.

(** X13: a walk ends the process exactly when it meets, without error,
    a path ending in [.go] whose scan is fatal; it stops at the first
    such path, having sent the records of the paths before it, and the
    entries after it are never visited. *)
Theorem walk_aborts_at_first_fatal_scan
        (os_Open : string -> error + bufio.Scanner)
        (root : string) (t : filepath.tree) :
  (result (filepath.walk (genFileProcessor os_Open) root t) = Exit
   <-> Exists (fails os_Open) (filepath.visits root t))
  /\ forall before v after,
       filepath.visits root t = before ++ v :: after ->
       Forall (scans os_Open) before ->
       fails os_Open v ->
       filepath.walk (genFileProcessor os_Open) root t
       = visitAll os_Open (before ++ [v])
       /\ sends (trace (filepath.walk (genFileProcessor os_Open) root t))
          = flat_map (sent os_Open) before.
Proof.
  rewrite walk_visitAll. split; [apply visitAll_exit_iff|].
  intros before v after Hvs Hbefore Hv. rewrite Hvs. split.
  - rewrite !visitAll_app. apply bind_ext. intros _.
    destruct v as [p e]. cbn [visitAll].
    pose proof (proj1 (fails_exits os_Open p e) Hv) as He.
    destruct (genFileProcessor os_Open p None e) as [tr o].
    unfold result in He. cbn [snd] in He. subst o. reflexivity.
  - apply visitAll_aborts_at; assumption.
Qed.

Lemma walk_aborts_at_first_fatal_scan_witness :
  filepath.visits "src"
    (filepath.Dir [ ("src/a.go", filepath.File);
                    ("src/gone.go", filepath.File);
                    ("src/z.go", filepath.File) ])
  = [("src", None); ("src/a.go", None)]
      ++ ("src/gone.go", None) :: [("src/z.go", None)]
  /\ sends (trace (filepath.walk
                     (genFileProcessor
                        (fun name =>
                           if String.eqb name "src/gone.go"
                           then inl "open src/gone.go: permission denied"
                           else inr (fileOf ["package a"])))
                     "src"
                     (filepath.Dir [ ("src/a.go", filepath.File);
                                     ("src/gone.go", filepath.File);
                                     ("src/z.go", filepath.File) ])))
     = [mkFileLines "src/a.go" 1 0 0].
Proof.
  split; [reflexivity|].
  refine (proj2 (proj2 (walk_aborts_at_first_fatal_scan
                          (fun name =>
                             if String.eqb name "src/gone.go"
                             then inl "open src/gone.go: permission denied"
                             else inr (fileOf ["package a"]))
                          "src"
                          (filepath.Dir [ ("src/a.go", filepath.File);
                                          ("src/gone.go", filepath.File);
                                          ("src/z.go", filepath.File) ]))
                       [("src", None); ("src/a.go", None)]
                       ("src/gone.go", None) [("src/z.go", None)]
                       eq_refl _ _)).
  - repeat constructor; intros E; try discriminate E; eexists; reflexivity.
  - split; reflexivity.
Defined.

(* ------------------------------------------------------------------ *)
(** ** More on the run *)

Section Roots.

Variable os_Open : string -> error + bufio.Scanner.
Variable os_Lstat : string -> filepath.tree.

Lemma walkFiles_cons (root : string) (rest : list string) :
  walkFiles os_Open os_Lstat (root :: rest)
  = bind (logf DEBUG ["processing"; root])
         (fun _ =>
            bind (visitAll os_Open (filepath.visits root (os_Lstat root)))
                 (fun _ => walkFiles os_Open os_Lstat rest)).
Proof.
  rewrite walkFiles_step, Walk_visitAll. reflexivity.
Qed.

Lemma walkFiles_append (files1 files2 : list string) :
  walkFiles os_Open os_Lstat (files1 ++ files2)
  = bind (walkFiles os_Open os_Lstat files1)
         (fun _ => walkFiles os_Open os_Lstat files2).
Proof.
  induction files1 as [|root files1 IH].
  - cbn [app walkFiles]. rewrite bind_ret_l. reflexivity.
  - cbn [app]. rewrite !walkFiles_cons, !bind_assoc.
    apply bind_ext. intros _. cbv beta.
    apply bind_ext. intros _. exact IH.
Qed.

(** The loop over the roots sends what the callback sends on the visits
    of all the roots, and ends the process where one of them does. *)
Lemma walkFiles_visits (files : list string) :
  sends (trace (walkFiles os_Open os_Lstat files))
  = sends (trace (visitAll os_Open (allVisits os_Lstat files)))
  /\ (result (walkFiles os_Open os_Lstat files) = Exit
      <-> result (visitAll os_Open (allVisits os_Lstat files)) = Exit).
Proof.
  induction files as [|root files [IHs IHr]].
  - split; [reflexivity | split; discriminate].
  - rewrite walkFiles_cons. unfold allVisits. cbn [flat_map].
    fold (allVisits os_Lstat files). rewrite visitAll_app.
    unfold logf. rewrite bind_emit. unfold trace at 1, result at 1.
    cbn [fst snd sends].
    rewrite !trace_bind, !result_bind.
    destruct (result (visitAll os_Open
                        (filepath.visits root (os_Lstat root)))).
    + rewrite !sends_app, IHs. split; [reflexivity | exact IHr].
    + split; [reflexivity | split; reflexivity].
Qed.

Lemma walkFiles_result (files : list string) :
  result (walkFiles os_Open os_Lstat files) = Ret tt
  \/ result (walkFiles os_Open os_Lstat files) = Exit.
Proof.
  destruct (result (walkFiles os_Open os_Lstat files)) as [[]|]; auto.
Qed.

Lemma lookup_levelName (l : Level) :
  lookup (levelName l) loggingLevels = Some l.
Proof. destruct l; reflexivity. Qed.

Lemma lookup_none (loggingFlag : string) :
  (forall l, loggingFlag <> levelName l) ->
  lookup loggingFlag loggingLevels = None.
Proof.
  intros H. unfold loggingLevels. cbn [lookup].
  repeat match goal with
         | |- context [String.eqb loggingFlag ?s] =>
             destruct (String.eqb_spec loggingFlag s) as [E | _]
         end;
    try reflexivity; exfalso; subst loggingFlag.
  - exact (H CRITICAL eq_refl).
  - exact (H DEBUG eq_refl).
  - exact (H ERROR eq_refl).
  - exact (H INFO eq_refl).
  - exact (H NOTICE eq_refl).
  - exact (H WARNING eq_refl).
Qed.

Lemma lookup_some (loggingFlag : string) (l : Level) :
  lookup loggingFlag loggingLevels = Some l -> loggingFlag = levelName l.
Proof.
  unfold loggingLevels. cbn [lookup].
  repeat match goal with
         | |- context [String.eqb loggingFlag ?s] =>
             destruct (String.eqb_spec loggingFlag s) as [E | _]
         end;
    intros H; inversion H; subst; reflexivity.
Qed.

End Roots.

(** X14: the roots of the command line are walked one after the other
    in the order given, each wholly before the next: walking [files1]
    followed by [files2] is walking [files1] and then, if the process
    still lives, [files2].  Nothing is remembered between roots, so a
    path given twice is walked, scanned and sent twice. *)
Theorem roots_are_walked_in_turn
        (os_Open : string -> error + bufio.Scanner)
        (os_Lstat : string -> filepath.tree) (files1 files2 : list string) :
  walkFiles os_Open os_Lstat (files1 ++ files2)
  = bind (walkFiles os_Open os_Lstat files1)
         (fun _ => walkFiles os_Open os_Lstat files2)
  /\ (result (walkFiles os_Open os_Lstat files1) = Ret tt ->
      sends (trace (walkFiles os_Open os_Lstat (files1 ++ files2)))
      = sends (trace (walkFiles os_Open os_Lstat files1))
        ++ sends (trace (walkFiles os_Open os_Lstat files2))).
Proof.
  split; [apply walkFiles_append|].
  intros H. rewrite walkFiles_append, trace_bind, H, sends_app. reflexivity.
Qed.

Lemma roots_are_walked_in_turn_witness :
  result (walkFiles demoOpen demoLstat ["proj"]) = Ret tt
  /\ sends (trace (walkFiles demoOpen demoLstat (["proj"] ++ ["proj"])))
     = [ mkFileLines "proj/a.go" 3 0 1; mkFileLines "proj/b.go" 0 2 0;
         mkFileLines "proj/a.go" 3 0 1; mkFileLines "proj/b.go" 0 2 0 ].
Proof.
  split; [reflexivity|].
  etransitivity.
  - exact (proj2 (roots_are_walked_in_turn demoOpen demoLstat
                    ["proj"] ["proj"]) eq_refl).
  - reflexivity.
Defined.

(** X15: the log level must be one of the six names, spelled in upper
    case: each of them is accepted, and with any other value the run
    ends at once with one fatal diagnostic, before any path is looked at
    (whatever the paths and the file system are). *)
Theorem invalid_log_level_is_fatal_at_startup
        (os_Open : string -> error + bufio.Scanner)
        (os_Lstat : string -> filepath.tree)
        (loggingFlag : string) (files : list string) :
  (forall l, loggingFlag <> levelName l) ->
  sloc os_Open os_Lstat loggingFlag files
  = Aborted [EvLog CRITICAL ["Invalid log level: found CRITICAL"]]
  /\ forall l, exists tr o,
       main os_Open os_Lstat (levelName l) files
       = (EvPrint ("loggingLevel " ++ levelName l ++ newline)%string :: tr, o).
Proof.
  intros H. split.
  - unfold sloc, main. rewrite (lookup_none _ H). reflexivity.
  - intros l. rewrite (main_walks _ _ _ _ l (lookup_levelName l)).
    eexists. eexists. reflexivity.
Qed.

Lemma invalid_log_level_is_fatal_at_startup_witness :
  sloc demoOpen demoLstat "info" ["proj"]
  = Aborted [EvLog CRITICAL ["Invalid log level: found CRITICAL"]].
Proof.
  apply (invalid_log_level_is_fatal_at_startup demoOpen demoLstat "info"
           ["proj"]).
  intros l. destruct l; discriminate.
Defined.

(** X16: a whole run, end to end.  With a valid log level, when every
    scan the walks start returns, the run completes and prints one
    table: its rows are the records of the paths ending in [.go] met
    without error, root by root in the order of the command line and in
    walk order inside each root, and its total row holds their sums as
    64-bit integers. *)
Theorem run_reports_every_go_file
        (os_Open : string -> error + bufio.Scanner)
        (os_Lstat : string -> filepath.tree)
        (loggingFlag : string) (l : Level) (files : list string) :
  lookup loggingFlag loggingLevels = Some l ->
  Forall (scans os_Open) (allVisits os_Lstat files) ->
  result (main os_Open os_Lstat loggingFlag files) = Ret tt
  /\ report (sloc os_Open os_Lstat loggingFlag files)
     = Some
         {| header := ["FILENAME"; "White Space"; "Comment"; "Code"];
            footer :=
              [ "TOTAL";
                Itoa (GoInt.wrap
                        (sumOf whitespaceLines
                           (flat_map (sent os_Open)
                                     (allVisits os_Lstat files))));
                Itoa (GoInt.wrap
                        (sumOf commentLines
                           (flat_map (sent os_Open)
                                     (allVisits os_Lstat files))));
                Itoa (GoInt.wrap
                        (sumOf codeLines
                           (flat_map (sent os_Open)
                                     (allVisits os_Lstat files)))) ];
            border := false;
            rows := map row (flat_map (sent os_Open)
                                      (allVisits os_Lstat files)) |}.
Proof.
  intros Hl Hall.
  destruct (visitAll_returns os_Open _ Hall) as [Hs Hr].
  destruct (walkFiles_visits os_Open os_Lstat files) as [Hws Hwr].
  assert (Hret : result (walkFiles os_Open os_Lstat files) = Ret tt).
  { destruct (walkFiles_result os_Open os_Lstat files) as [E | E];
      [exact E|]. apply Hwr in E. rewrite Hr in E. discriminate E. }
  rewrite (main_walks _ _ _ _ l Hl). unfold result at 1. cbn [snd].
  split; [exact Hret|].
  unfold sloc. rewrite (main_walks _ _ _ _ l Hl), Hret.
  cbn [report app sends]. rewrite Hws, Hs, processResults_eq.
  unfold trace at 1. cbn [fst]. rewrite rendered_after_logs. reflexivity.
Qed.

Lemma run_reports_every_go_file_witness :
  report (sloc demoOpen demoLstat "DEBUG" ["work"; "missing"; "proj"])
  = Some {| header := ["FILENAME"; "White Space"; "Comment"; "Code"];
            footer := ["TOTAL"; "1"; "5"; "4"];
            border := false;
            rows := [ ["work/c.go"; "0"; "3"; "1"];
                      ["proj/a.go"; "1"; "0"; "3"];
                      ["proj/b.go"; "0"; "2"; "0"] ] |}.
Proof.
  refine (proj2 (run_reports_every_go_file demoOpen demoLstat "DEBUG" DEBUG
                   ["work"; "missing"; "proj"] eq_refl _)).
  repeat constructor; intros E; try discriminate E; eexists; reflexivity.
Defined.

(** X17: a run prints its table exactly when it is not aborted, and it
    is aborted exactly when the log level is not valid or one of the
    walks meets, without error, a path ending in [.go] whose scan is
    fatal; records scanned before that point are then never printed. *)
Theorem report_iff_not_aborted
        (os_Open : string -> error + bufio.Scanner)
        (os_Lstat : string -> filepath.tree)
        (loggingFlag : string) (files : list string) :
  (report (sloc os_Open os_Lstat loggingFlag files) = None
   <-> exists tr, sloc os_Open os_Lstat loggingFlag files = Aborted tr)
  /\ ((exists tr, sloc os_Open os_Lstat loggingFlag files = Aborted tr)
      <-> lookup loggingFlag loggingLevels = None
          \/ Exists (fails os_Open) (allVisits os_Lstat files)).
Proof.
  destruct (walkFiles_visits os_Open os_Lstat files) as [_ Hwr].
  rewrite visitAll_exit_iff in Hwr.
  unfold sloc.
  destruct (lookup loggingFlag loggingLevels) as [l|] eqn:El.
  - rewrite (main_walks _ _ _ _ l El).
    destruct (walkFiles_result os_Open os_Lstat files) as [E | E]; rewrite E.
    + cbn [report]. rewrite processResults_eq. unfold trace at 1. cbn [fst].
      rewrite rendered_after_logs. cbn [rendered]. split.
      * split; [discriminate | intros [tr H]; discriminate H].
      * split; [intros [tr H]; discriminate H|].
        intros [H | H]; [discriminate H|].
        apply Hwr in H. rewrite E in H. discriminate H.
    + cbn [report]. split.
      * split; [eauto | reflexivity].
      * split; [|eauto]. intros _. right. apply Hwr. exact E.
  - unfold main. rewrite El. cbn [Fatal report]. split.
    + split; [eauto | reflexivity].
    + split; [auto | eauto].
Qed.

(** X18: the callback never looks at the file info, so a directory
    whose name ends in [.go] is handed to [getFileStats] like a file.
    Opening a directory succeeds and its first read fails, which ends
    the scanner's loop without a line: the directory gets a record, and
    a row, with three zeros, and the walk goes on into the directory. *)
Theorem directory_named_go_gets_a_row
        (os_Open : string -> error + bufio.Scanner)
        (dir : string) (entries : list (string * filepath.tree))
        (file : bufio.Scanner) :
  strings.HasSuffix dir ".go" = true ->
  os_Open dir = inr file ->
  bufio.tokens file = [] ->
  filepath.walk (genFileProcessor os_Open) dir (filepath.Dir entries)
  = bind (emit (EvLog DEBUG ["fileProcessor"; dir]))
         (fun _ =>
            bind (emit (EvSend (mkFileLines dir 0 0 0)))
                 (fun _ =>
                    filepath.walkEntries (genFileProcessor os_Open) entries))
  /\ sends (trace (filepath.walk (genFileProcessor os_Open) dir
                     (filepath.Dir entries)))
     = mkFileLines dir 0 0 0
       :: sends (trace (filepath.walkEntries (genFileProcessor os_Open)
                          entries)).
Proof.
  intros Hsuf Hopen Htok.
  assert (Hscan : getFileStats os_Open dir = ([], Ret (mkFileLines dir 0 0 0))).
  { unfold getFileStats. rewrite Hopen, Htok. reflexivity. }
  assert (Heq : filepath.walk (genFileProcessor os_Open) dir
                  (filepath.Dir entries)
                = bind (emit (EvLog DEBUG ["fileProcessor"; dir]))
                    (fun _ =>
                       bind (emit (EvSend (mkFileLines dir 0 0 0)))
                         (fun _ =>
                            filepath.walkEntries (genFileProcessor os_Open)
                              entries))).
  { rewrite walk_Dir, genFileProcessor_scans by exact Hsuf.
    rewrite Hscan. unfold trace, result. cbn [fst snd app].
    rewrite !bind_emit.
    destruct (filepath.walkEntries (genFileProcessor os_Open) entries)
      as [tr o]. reflexivity. }
  split; [exact Heq|].
  rewrite Heq, !bind_emit. reflexivity.
Qed.

Lemma directory_named_go_gets_a_row_witness :
  sends (trace (filepath.walk
                  (genFileProcessor
                     (fun name =>
                        if String.eqb name "vendor.go"
                        then inr {| bufio.tokens := [];
                                    bufio.stopErr :=
                                      Some "read vendor.go: is a directory" |}
                        else inr (fileOf ["package v"])))
                  "vendor.go"
                  (filepath.Dir [("vendor.go/v.go", filepath.File)])))
  = [mkFileLines "vendor.go" 0 0 0; mkFileLines "vendor.go/v.go" 1 0 0].
Proof.
  etransitivity.
  - apply (directory_named_go_gets_a_row
             (fun name =>
                if String.eqb name "vendor.go"
                then inr {| bufio.tokens := [];
                            bufio.stopErr :=
                              Some "read vendor.go: is a directory" |}
                else inr (fileOf ["package v"]))
             "vendor.go" [("vendor.go/v.go", filepath.File)]
             {| bufio.tokens := [];
                bufio.stopErr := Some "read vendor.go: is a directory" |});
      reflexivity.
  - reflexivity.
Defined.

Lemma go_suffix_of_joined_path_witness :
  strings.HasSuffix ("pkg.go" ++ "/" ++ "go") ".go" = false
  /\ strings.HasSuffix ("pkg" ++ "/" ++ "a.go") ".go" = true.
Proof.
  split.
  - etransitivity;
      [apply (go_suffix_of_joined_path "pkg.go" "go"); discriminate
      | reflexivity].
  - etransitivity;
      [apply (go_suffix_of_joined_path "pkg" "a.go"); discriminate
      | reflexivity].
Defined.

(** A root that cannot be stat'd, wherever it stands on the command
    line, changes nothing but the log: the loop over the roots sends the
    same records and ends the same way as without it, and the run prints
    the same report. *)
Lemma missing_root_anywhere
      (os_Open : string -> error + bufio.Scanner)
      (os_Lstat : string -> filepath.tree) (root : string) (e : error)
      (loggingFlag : string) (pre post : list string) :
  os_Lstat root = filepath.NoStat e ->
  sends (trace (walkFiles os_Open os_Lstat (pre ++ root :: post)))
  = sends (trace (walkFiles os_Open os_Lstat (pre ++ post)))
  /\ result (walkFiles os_Open os_Lstat (pre ++ root :: post))
     = result (walkFiles os_Open os_Lstat (pre ++ post))
  /\ report (sloc os_Open os_Lstat loggingFlag (pre ++ root :: post))
     = report (sloc os_Open os_Lstat loggingFlag (pre ++ post)).
Proof.
  intros H.
  assert (Hwalk :
            sends (trace (walkFiles os_Open os_Lstat (pre ++ root :: post)))
            = sends (trace (walkFiles os_Open os_Lstat (pre ++ post)))
            /\ result (walkFiles os_Open os_Lstat (pre ++ root :: post))
               = result (walkFiles os_Open os_Lstat (pre ++ post))).
  { rewrite !walkFiles_append. apply bind_same_sends. intros _.
    rewrite (proj1 (proj2 (missing_root_is_logged_and_skipped
                             os_Open os_Lstat root e H)) post).
    unfold trace at 1, result at 1. cbn [fst snd sends].
    unfold skipLog. destruct (strings.HasSuffix root ".go");
      split; reflexivity. }
  destruct Hwalk as [Hs Hr]. split; [exact Hs|]. split; [exact Hr|].
  unfold sloc. destruct (lookup loggingFlag loggingLevels) as [l|] eqn:El.
  - rewrite !(main_walks _ _ _ _ l El).
    destruct (walkFiles os_Open os_Lstat (pre ++ root :: post)) as [tr1 o1].
    destruct (walkFiles os_Open os_Lstat (pre ++ post)) as [tr2 o2].
    unfold trace, result in *. cbn [fst snd] in *. subst o1.
    destruct o2 as [u|]; [|reflexivity].
    cbn [app sends]. rewrite Hs. reflexivity.
  - unfold main. rewrite El. reflexivity.
Qed.

Lemma missing_root_anywhere_witness :
  report (sloc demoOpen demoLstat "INFO" (["proj"] ++ "missing.go" :: ["work"]))
  = report (sloc demoOpen demoLstat "INFO" (["proj"] ++ ["work"])).
Proof.
  exact (proj2 (proj2 (missing_root_anywhere demoOpen demoLstat "missing.go"
                         "lstat missing.go: no such file or directory"
                         "INFO" ["proj"] ["work"] eq_refl))).
Defined.
